(** * QR factorisation operand of the tensor layer: call and tiling

    A shallow embedding of [mars/tensor/expressions/linalg/qr.py]:
    the class [TensorQR] with its [__call__] and [tile] methods and the
    function [qr].  The embedding follows the Python text statement by
    statement.  Exceptions are values of [Result]; the creation of tensors
    and chunks threads a counter of fresh keys, so that what has been built
    when an exception is raised can be observed. *)

From Stdlib Require Import List String Arith Bool Lia DecimalString DecimalNat.
Import ListNotations.
Open Scope string_scope.
Open Scope nat_scope.

(** ** Exceptions and the construction monad *)

Inductive Exception : Type :=
| LinAlgError (msg : string)
| NotImplementedError (msg : string)
| IndexError (msg : string)
| ValueError (msg : string)
| TypeError (msg : string).

Inductive Result (A : Type) : Type :=
| Ok (a : A)
| Raise (e : Exception).

Arguments Ok {A} a.
Arguments Raise {A} e.

(** Keys give nodes their identity.  The store is the next unused key:
    a store that has not moved means that no node has been created. *)
Definition Key := nat.
Definition Store := nat.

Definition M (A : Type) : Type := Store -> Store * Result A.

Definition ret {A} (a : A) : M A := fun s => (s, Ok a).

Definition raise {A} (e : Exception) : M A := fun s => (s, Raise e).

Definition bind {A B} (m : M A) (k : A -> M B) : M B :=
  fun s =>
    match m s with
    | (s', Ok a) => k a s'
    | (s', Raise e) => (s', Raise e)
    end.

Definition lift {A} (r : Result A) : M A := fun s => (s, r).

Definition fresh : M Key := fun s => (S s, Ok s).

Declare Scope qr_scope.
Delimit Scope qr_scope with qr.
Notation "x <- m ;; k" := (bind m (fun x => k))
  (at level 100, m at next level, right associativity) : qr_scope.
Notation "' p <- m ;; k" := (bind m (fun x => let p := x in k))
  (at level 100, p pattern, m at next level, right associativity) : qr_scope.
Open Scope qr_scope.

(** ** Data model *)

Inductive DType : Type :=
| bool_ | int32 | int64 | float16 | float32 | float64
| complex64 | complex128 | object_.

(** The attributes [TensorQR.__init__] passes to its base class, and the
    key of the operand, which is unset until the operand gets its inputs. *)
Record TensorQR : Type := mkTensorQR {
  _key : option Key;
  _method : option string;
  _dtype : option DType
}.

(** What a chunk is computed by.  A chunk-level copy of the QR operand
    factors its input; when it has several inputs it factors their vertical
    stack.  [QBackSubstitute lo hi] multiplies its first input with the rows
    [lo..hi) of its second one. *)
Inductive Operation : Type :=
| LocalQR (op : TensorQR)
| QBackSubstitute (lo hi : nat).

#[warnings="-register-all"] Inductive Chunk : Type := mkChunk {
  c_key : Key;
  c_op : option Operation;
  c_inputs : list Chunk;
  c_shape : list nat;
  c_index : list nat;
  c_side : option string
}.

#[warnings="-register-all"] Inductive Tensor : Type := mkTensor {
  t_key : Key;
  t_op : option TensorQR;
  t_inputs : list Tensor;
  shape : list nat;
  dtype : DType;
  side : option string;
  chunks : list Chunk;
  nsplits : option (list (list nat))
}.

Definition ndim (t : Tensor) : nat := List.length (shape t).

(** The framework's [chunk_shape] property of a tensor: how many chunks it
    has along each axis. *)
Definition chunk_shape (t : Tensor) : option (list nat) :=
  option_map (map (@List.length nat)) (nsplits t).

(** An operand whose inputs and outputs are set.  [_set_inputs] stores the
    first input as [input]; [new_tensors] sets the two outputs. *)
Record Op : Type := mkOp {
  params : TensorQR;
  inputs : list Tensor;
  input : Tensor;
  outputs : Tensor * Tensor
}.

Definition method (op : Op) : option string := _method (params op).

(** Keyword arguments of [new_tensors] and of [new_chunks]. *)
Record TensorKw : Type := mkTensorKw {
  kw_side : option string;
  kw_dtype : DType;
  kw_chunks : list Chunk;
  kw_nsplits : option (list (list nat))
}.

Record ChunkKw : Type := mkChunkKw {
  ckw_side : option string
}.

(** ** The framework's constructors *)

(** An operand takes a key when its inputs are set and it has none. *)
Definition update_key (self : TensorQR) : M TensorQR :=
  match _key self with
  | Some _ => ret self
  | None => k <- fresh ;; ret (mkTensorQR (Some k) (_method self) (_dtype self))
  end.

(** One tensor per shape and keyword record, each with a fresh key, all
    produced by [op] from [ins]. *)
Fixpoint create_tensors (op : TensorQR) (ins : list Tensor)
    (shapes : list (list nat)) (kws : list TensorKw) : M (list Tensor) :=
  match shapes, kws with
  | sh :: shapes', kw :: kws' =>
      k <- fresh ;;
      rest <- create_tensors op ins shapes' kws' ;;
      ret (mkTensor k (Some op) ins sh (kw_dtype kw) (kw_side kw)
                    (kw_chunks kw) (kw_nsplits kw) :: rest)
  | _, _ => ret []
  end.

Definition new_tensors (self : TensorQR) (ins : list Tensor)
    (shapes : list (list nat)) (kws : list TensorKw) : M (list Tensor) :=
  op <- update_key self ;;
  create_tensors op ins shapes kws.

Fixpoint create_chunks (op : Operation) (ins : list Chunk)
    (shapes : list (list nat)) (index : list nat) (kws : list ChunkKw)
    : M (list Chunk) :=
  match shapes, kws with
  | sh :: shapes', kw :: kws' =>
      k <- fresh ;;
      rest <- create_chunks op ins shapes' index kws' ;;
      ret (mkChunk k (Some op) ins sh index (ckw_side kw) :: rest)
  | _, _ => ret []
  end.

Definition new_chunks (self : TensorQR) (ins : list Chunk)
    (shapes : list (list nat)) (index : list nat) (kws : list ChunkKw)
    : M (list Chunk) :=
  op <- update_key self ;;
  create_chunks (LocalQR op) ins shapes index kws.

Definition copy (op : Op) : Op := op.

Definition reset_key (op : Op) : Op :=
  mkOp (mkTensorQR None (_method (params op)) (_dtype (params op)))
       (inputs op) (input op) (outputs op).

(** The rank as ['{0}'.format] prints it. *)
Definition format_nat (n : nat) : string :=
  NilEmpty.string_of_uint (Nat.to_uint n).

Definition dimension_message (n : nat) : string :=
  String.append (format_nat n)
    "-dimensional tensor given. Tensor must be two-dimensional".

Definition list_nat_eqb (l1 l2 : list nat) : bool :=
  if list_eq_dec Nat.eq_dec l1 l2 then true else false.

Definition is_single_chunk (t : Tensor) : bool :=
  match chunk_shape t with
  | Some cs => list_nat_eqb cs [1; 1]
  | None => false
  end.

Definition is_tsqr (m : option string) : bool :=
  match m with
  | Some s => String.eqb s "tsqr"
  | None => false
  end.

Section QR.

  (** What the tensor layer and numpy provide.  [astensor] turns the
      argument of the call into a tensor.  [np_linalg_qr_ones d] stands for
      [np.linalg.qr(np.ones((1, 1), dtype=d))]: the dtypes of the two
      arrays it returns, or the exception it raises.  [TSQR_tile] is the
      [tile] of the base class [TSQR]. *)
Variable ArrayLike : Type.
Variable astensor : ArrayLike -> Tensor.
Variable np_linalg_qr_ones : DType -> Result (DType * DType).
Variable TSQR_tile : Op -> M (list Tensor).

Definition TensorQR_call (self : TensorQR) (a0 : ArrayLike)
      : M (Tensor * Tensor) :=
    let a := astensor a0 in
    if negb (ndim a =? 2) then
      raise (LinAlgError (dimension_message (ndim a)))
    else
      ' (tiny_q, tiny_r) <- lift (np_linalg_qr_ones (dtype a)) ;;
      match shape a with
      | [x; y] =>
          let q_shape := if y <? x then shape a else [x; x] in
          let r_shape := if x <? y then shape a else [y; y] in
          ts <- new_tensors self [a] [q_shape; r_shape]
                  [mkTensorKw (Some "q") tiny_q [] None;
                   mkTensorKw (Some "r") tiny_r [] None] ;;
          match ts with
          | [q; r] => ret (q, r)
          | _ => raise (ValueError "wrong number of values to unpack")
          end
      | _ => raise (ValueError "wrong number of values to unpack")
      end.

Definition TensorQR_tile (op : Op) : M (list Tensor) :=
    let '(q, r) := outputs op in
    let q_dtype := dtype q in
    let r_dtype := dtype r in
    let q_shape := shape q in
    let r_shape := shape r in
    let in_tensor := input op in
    if is_single_chunk in_tensor then
      match chunks in_tensor with
      | in_chunk :: _ =>
          let chunk_op := reset_key (copy op) in
          qr_chunks <- new_chunks (params chunk_op) [in_chunk]
                         [q_shape; r_shape] (c_index in_chunk)
                         [mkChunkKw (Some "q"); mkChunkKw (Some "r")] ;;
          match qr_chunks with
          | [q_chunk; r_chunk] =>
              let new_op := copy op in
              new_tensors (params new_op) (inputs op) [q_shape; r_shape]
                [mkTensorKw None q_dtype [q_chunk] (Some [[1]; [1]]);
                 mkTensorKw None r_dtype [r_chunk] (Some [[1]; [1]])]
          | _ => raise (ValueError "wrong number of values to unpack")
          end
      | [] => raise (IndexError "list index out of range")
      end
    else if is_tsqr (method op) then
      TSQR_tile op
    else
      raise (NotImplementedError "Only tsqr method supported for now").

(** [qr(a, method='tsqr')]: the operand is built with the method alone; it
    is a descriptor with no key, inputs or outputs until it is called. *)
Definition qr (a : ArrayLike) (method : option string)
      : M (Tensor * Tensor) :=
    let op := mkTensorQR None method None in
    TensorQR_call op a.

End QR.

Arguments TensorQR_call {ArrayLike} astensor np_linalg_qr_ones self a0 _.
Arguments qr {ArrayLike} astensor np_linalg_qr_ones a method _.

(** ** What a caller can read off the result of a call *)

Definition metadata (t : Tensor) : list nat * DType := (shape t, dtype t).

Definition call_metadata (res : Store * Result (Tensor * Tensor))
    : Result ((list nat * DType) * (list nat * DType)) :=
  match snd res with
  | Ok (q, r) => Ok (metadata q, metadata r)
  | Raise e => Raise e
  end.

(** The rank that a dimension message starts with. *)
Definition parse_nat (s : string) : option nat :=
  option_map Nat.of_uint (NilEmpty.uint_of_string s).

(** ** Concrete collaborators for the examples *)

(** numpy's promotion in [linalg.qr]: single and double precision floats
    and complex numbers keep their dtype, booleans and integers become
    [float64], half floats and objects are refused. *)
Definition numpy_qr_ones (d : DType) : Result (DType * DType) :=
  match d with
  | float32 => Ok (float32, float32)
  | complex64 => Ok (complex64, complex64)
  | complex128 => Ok (complex128, complex128)
  | float16 => Raise (TypeError "array type float16 is unsupported in linalg")
  | object_ => Raise (TypeError "array type object is unsupported in linalg")
  | _ => Ok (float64, float64)
  end.

(** A primitive that treats its two results differently. *)
Definition asymmetric_qr_ones (d : DType) : Result (DType * DType) :=
  Ok (d, float64).

(** A source tensor of the given shape, dtype and splits, whose chunks are
    source blocks. *)
Definition source_chunk (k : Key) (sh idx : list nat) : Chunk :=
  mkChunk k None [] sh idx None.

Definition source_tensor (k : Key) (sh : list nat) (d : DType)
    (cs : list Chunk) (ns : option (list (list nat))) : Tensor :=
  mkTensor k None [] sh d None cs ns.

(** ** The tiling of the base class *)

Definition rows_of (c : Chunk) : nat :=
  match c_shape c with
  | m :: _ => m
  | [] => 0
  end.

Definition q_kw : ChunkKw := mkChunkKw (Some "q").
Definition r_kw : ChunkKw := mkChunkKw (Some "r").

(** Leaf level: one local factorisation per block, in block order, giving
    [Q_i] of [m_i] rows and [n] columns and [R_i] of [n] rows and columns. *)
Fixpoint leaf_level (op : TensorQR) (n : nat) (blocks : list Chunk)
    : M (list (Chunk * Chunk)) :=
  match blocks with
  | [] => ret []
  | b :: bs =>
      qr_i <- new_chunks op [b] [[rows_of b; n]; [n; n]] (c_index b)
                [q_kw; r_kw] ;;
      match qr_i with
      | [q_i; r_i] =>
          rest <- leaf_level op n bs ;;
          ret ((q_i, r_i) :: rest)
      | _ => raise (ValueError "wrong number of values to unpack")
      end
  end.

(** Back-substitution: the final [Q] of leaf [i] is the product of its
    local [Q_i] with the rows of the merged [Q] recorded for it. *)
Fixpoint back_substitute (n i : nat) (q_group : Chunk)
    (leaves : list (Chunk * Chunk)) : M (list Chunk) :=
  match leaves with
  | [] => ret []
  | (q_i, _) :: ls =>
      q_final <- create_chunks (QBackSubstitute (i * n) (S i * n))
                   [q_i; q_group] [c_shape q_i] [i; 0] [q_kw] ;;
      rest <- back_substitute n (S i) q_group ls ;;
      ret (q_final ++ rest)%list
  end.

(** Modelled from the spec: the [tile] of the base class [TSQR]
    (linalg/core.py), which [TensorQR.tile] delegates to and which is not
    among the sources.  Section 4.3 to 4.5: a partition with several
    column-blocks is refused; otherwise every row-block is factored, the
    [R] factors are stacked in block order and factored by one merge node
    (all of them at once), every leaf's [Q] is multiplied with its rows of
    the merged [Q], and the results are assembled: [Q] split by rows in
    block order, [R] in one chunk. *)
Definition TSQR_tile_spec (op : Op) : M (list Tensor) :=
  let '(q, r) := outputs op in
  let in_tensor := input op in
  match chunk_shape in_tensor with
  | Some [_; col_blocks] =>
      if 1 <? col_blocks then
        raise (NotImplementedError "short-and-fat qr is not implemented")
      else
        match shape in_tensor with
        | [_; n] =>
            let chunk_op := params (reset_key (copy op)) in
            leaves <- leaf_level chunk_op n (chunks in_tensor) ;;
            let k := List.length leaves in
            merged <- new_chunks chunk_op (map snd leaves)
                        [[k * n; n]; [n; n]] [0; 0] [q_kw; r_kw] ;;
            match merged with
            | [q_group; r_root] =>
                q_chunks <- back_substitute n 0 q_group leaves ;;
                new_tensors (params (copy op)) (inputs op) [shape q; shape r]
                  [mkTensorKw None (dtype q) q_chunks
                     (Some [map rows_of q_chunks; [n]]);
                   mkTensorKw None (dtype r) [r_root] (Some [[n]; [n]])]
            | _ => raise (ValueError "wrong number of values to unpack")
            end
        | _ => raise (ValueError "the input is not a matrix")
        end
  | _ => raise (ValueError "the input is not a partitioned matrix")
  end.

(** The operand with another method. *)
Definition set_method (m : option string) (op : Op) : Op :=
  mkOp (mkTensorQR (_key (params op)) m (_dtype (params op)))
       (inputs op) (input op) (outputs op).

(** ** Equality up to node identity *)

Definition erase_op (op : TensorQR) : TensorQR :=
  mkTensorQR None (_method op) (_dtype op).

Definition erase_operation (o : Operation) : Operation :=
  match o with
  | LocalQR op => LocalQR (erase_op op)
  | QBackSubstitute lo hi => QBackSubstitute lo hi
  end.

(** Every key is forgotten; shapes, indices, sides, operations and the
    edges (each node holds the nodes it consumes, in order) are kept. *)
Fixpoint erase_chunk (c : Chunk) : Chunk :=
  match c with
  | mkChunk _ o ins sh idx sd =>
      mkChunk 0 (option_map erase_operation o) (map erase_chunk ins) sh idx sd
  end.

Fixpoint erase_tensor (t : Tensor) : Tensor :=
  match t with
  | mkTensor _ o ins sh d sd cs ns =>
      mkTensor 0 (option_map erase_op o) (map erase_tensor ins) sh d sd
               (map erase_chunk cs) ns
  end.

Definition erase_request (op : Op) : Op :=
  mkOp (erase_op (params op)) (map erase_tensor (inputs op))
       (erase_tensor (input op))
       (erase_tensor (fst (outputs op)), erase_tensor (snd (outputs op))).

Definition erase_kw (kw : TensorKw) : TensorKw :=
  mkTensorKw (kw_side kw) (kw_dtype kw) (map erase_chunk (kw_chunks kw))
             (kw_nsplits kw).

Definition erase_leaf (l : Chunk * Chunk) : Chunk * Chunk :=
  (erase_chunk (fst l), erase_chunk (snd l)).

(** What a computation yields from a store, seen through [er]. *)
Definition outcome {A B} (er : A -> B) (res : Store * Result A) : Result B :=
  match snd res with
  | Ok a => Ok (er a)
  | Raise e => Raise e
  end.

(** Two computations agree up to [er] when they do so from any two stores. *)
Definition agree {A B} (er : A -> B) (m1 m2 : M A) : Prop :=
  forall s1 s2, outcome er (m1 s1) = outcome er (m2 s2).

Definition same_request (op1 op2 : Op) : Prop :=
  erase_request op1 = erase_request op2.

Definition deterministic (tile : Op -> M (list Tensor)) : Prop :=
  forall op1 op2, same_request op1 op2 ->
    agree (map erase_tensor) (tile op1) (tile op2).

(** ** Running a chunk *)

Section Execution.

  (** The local primitive and the dense operations of the backend. *)
Variable Matrix : Type.
Variable localQR : Matrix -> Matrix * Matrix.
Variable vstack : list Matrix -> Matrix.
Variable matmul : Matrix -> Matrix -> Matrix.
Variable row_slice : nat -> nat -> Matrix -> Matrix.

Definition select_side (sd : option string) (p : Matrix * Matrix)
      : option Matrix :=
    match sd with
    | Some s => if String.eqb s "q" then Some (fst p)
                else if String.eqb s "r" then Some (snd p) else None
    | None => None
    end.

Fixpoint all_some (l : list (option Matrix)) : option (list Matrix) :=
    match l with
    | [] => Some []
    | Some m :: l' => option_map (cons m) (all_some l')
    | None :: _ => None
    end.

  (** Modelled from the spec: the execution of a chunk node, which belongs
      to the execution engine and is not among the sources.  A source block
      is read from [data]; a local-QR node applies the primitive to its
      operand (to the vertical stack of its operands when it has several)
      and yields the side it stands for; a back-substitution node multiplies
      its first operand with the recorded rows of its second. *)
Fixpoint execute (data : Key -> option Matrix) (c : Chunk)
      : option Matrix :=
    match c with
    | mkChunk k None _ _ _ _ => data k
    | mkChunk _ (Some (LocalQR _)) ins _ _ sd =>
        match all_some (map (execute data) ins) with
        | Some [m] => select_side sd (localQR m)
        | Some (m :: ms) => select_side sd (localQR (vstack (m :: ms)))
        | _ => None
        end
    | mkChunk _ (Some (QBackSubstitute lo hi)) ins _ _ _ =>
        match all_some (map (execute data) ins) with
        | Some [q_i; q_group] => Some (matmul q_i (row_slice lo hi q_group))
        | _ => None
        end
    end.

  (** The local primitive applied directly to one block. *)
Definition direct_local_qr (data : Key -> option Matrix) (block : Chunk)
      : option (Matrix * Matrix) :=
    option_map localQR (execute data block).

End Execution.

(** ** Concrete requests for the examples *)

Definition single_block_matrix (k : Key) : Tensor :=
  source_tensor k [9; 6] float64
    [source_chunk (S k) [9; 6] [0; 0]] (Some [[9]; [6]]).

Definition row_blocks_matrix (k : Key) : Tensor :=
  source_tensor k [9; 6] float64
    [source_chunk (S k) [4; 6] [0; 0]; source_chunk (S (S k)) [5; 6] [1; 0]]
    (Some [[4; 5]; [6]]).

Definition grid_matrix (k : Key) : Tensor :=
  source_tensor k [8; 8] float64
    [source_chunk (k + 1) [4; 4] [0; 0]; source_chunk (k + 2) [4; 4] [0; 1];
     source_chunk (k + 3) [4; 4] [1; 0]; source_chunk (k + 4) [4; 4] [1; 1]]
    (Some [[4; 4]; [4; 4]]).

Definition wide_int_matrix : Tensor :=
  source_tensor 110 [6; 9] int32
    [source_chunk 111 [6; 9] [0; 0]] (Some [[6]; [9]]).

Definition cube : Tensor := source_tensor 120 [2; 3; 4] float64 [] None.

(** The operand as the call leaves it: key [k], inputs and outputs set. *)
Definition request (k : Key) (m : option string) (a : Tensor)
    (q_shape r_shape : list nat) : Op :=
  let op := mkTensorQR (Some k) m None in
  mkOp op [a] a
    (mkTensor (S k) (Some op) [a] q_shape float64 (Some "q") [] None,
     mkTensor (S (S k)) (Some op) [a] r_shape float64 (Some "r") [] None).

(** [astensor] on an argument that is a tensor already. *)
Definition the_tensor (t : Tensor) : Tensor := t.

(** Stand-ins for the backend on numbers, for the examples. *)
Definition toy_qr (m : nat) : nat * nat := (2 * m, 2 * m + 1).
Definition toy_vstack (l : list nat) : nat := list_sum l.
Definition toy_slice (lo hi m : nat) : nat := m + lo + hi.
Definition toy_data (k : Key) : option nat := Some (3 * k).

(** ** The rest of the class *)

(** [TensorQR.__init__]: the method and the dtype are handed to the base
    class; the operand has no key yet. *)
Definition TensorQR_init (method : option string) (dtype : option DType)
    : TensorQR :=
  mkTensorQR None method dtype.

(** The default of the [method] argument of [qr]. *)
Definition default_method : option string := Some "tsqr".

(** [TensorQR._set_inputs]: the base class stores the inputs, then the first
    of them is kept as [_input].  On an empty list the indexing raises, after
    the inputs have been stored. *)
Definition _set_inputs (self : Op) (ins : list Tensor) : Op * Result unit :=
  match ins with
  | a :: _ => (mkOp (params self) ins a (outputs self), Ok tt)
  | [] => (mkOp (params self) ins (input self) (outputs self),
           Raise (IndexError "list index out of range"))
  end.

(** The first input of an operand is the one it keeps as [input]. *)
Definition input_is_first (op : Op) : Prop :=
  hd_error (inputs op) = Some (input op).

(** The splits of a tensor add up to its shape, axis by axis. *)
Definition splits_cover (t : Tensor) : Prop :=
  option_map (map list_sum) (nsplits t) = Some (shape t).

Definition half_matrix : Tensor :=
  source_tensor 150 [4; 4] float16
    [source_chunk 151 [4; 4] [0; 0]] (Some [[4]; [4]]).

(** A tensor that claims one chunk and has none. *)
Definition hollow_matrix : Tensor :=
  source_tensor 160 [3; 3] float64 [] (Some [[3]; [3]]).

(** A tiling of the base class that is never to be reached. *)
Definition unreachable_tile (op : Op) : M (list Tensor) :=
  raise (ValueError "the tiling of the base class was reached").

(** The running example: the call on a 9 by 6 matrix held in one chunk. *)
Definition example_self : TensorQR := mkTensorQR None (Some "tsqr") None.
Definition example_matrix : Tensor := single_block_matrix 100.
Definition example_chunk : Chunk := source_chunk 101 [9; 6] [0; 0].
Definition example_request : Op :=
  request 7 (Some "tsqr") example_matrix [9; 6] [6; 6].
Definition example_q : Tensor := fst (outputs example_request).
Definition example_r : Tensor := snd (outputs example_request).

(** ** Facts about the single-chunk test, the method test and messages *)

Lemma is_single_chunk_true (t : Tensor) :
  is_single_chunk t = true <-> chunk_shape t = Some [1; 1].
Proof.
  unfold is_single_chunk, list_nat_eqb.
  destruct (chunk_shape t) as [cs|].
  - destruct (list_eq_dec Nat.eq_dec cs [1; 1]) as [E|N].
    + subst. split; reflexivity || auto.
    + split; [discriminate|]. intros H. inversion H. contradiction.
  - split; discriminate.
Qed.

Lemma is_single_chunk_false (t : Tensor) :
  chunk_shape t <> Some [1; 1] -> is_single_chunk t = false.
Proof.
  intros H. destruct (is_single_chunk t) eqn:E; [|reflexivity].
  apply is_single_chunk_true in E. contradiction.
Qed.

Lemma is_tsqr_true (m : option string) :
  is_tsqr m = true <-> m = Some "tsqr".
Proof.
  destruct m as [s|]; simpl.
  - rewrite String.eqb_eq. split; [intros ->; reflexivity|].
    intros H. inversion H. reflexivity.
  - split; discriminate.
Qed.

Lemma is_tsqr_false (m : option string) :
  m <> Some "tsqr" -> is_tsqr m = false.
Proof.
  intros H. destruct (is_tsqr m) eqn:E; [|reflexivity].
  apply is_tsqr_true in E. contradiction.
Qed.

Lemma parse_format_nat (n : nat) : parse_nat (format_nat n) = Some n.
Proof.
  unfold parse_nat, format_nat. rewrite NilEmpty.usu. simpl.
  f_equal. apply DecimalNat.Unsigned.of_to.
Qed.

Lemma update_key_ok (self : TensorQR) (s : Store) :
  exists op s', update_key self s = (s', Ok op) /\
    _method op = _method self /\ _dtype op = _dtype self.
Proof.
  unfold update_key. destruct self as [[k|] m d]; simpl.
  - eexists _, _. split; [reflexivity|]. auto.
  - eexists _, _. split; [reflexivity|]. auto.
Qed.

(** ** The call *)

Section CallFacts.

Variable ArrayLike : Type.
Variable astensor : ArrayLike -> Tensor.
Variable np_linalg_qr_ones : DType -> Result (DType * DType).

Lemma call_rank2 (self : TensorQR) (a0 : ArrayLike) (x y : nat)
      (tq tr : DType) (s : Store) :
  shape (astensor a0) = [x; y] ->
  np_linalg_qr_ones (dtype (astensor a0)) = Ok (tq, tr) ->
  exists op k1 k2 s',
    TensorQR_call astensor np_linalg_qr_ones self a0 s =
      (s', Ok (mkTensor k1 (Some op) [astensor a0]
                 (if y <? x then [x; y] else [x; x]) tq (Some "q") [] None,
               mkTensor k2 (Some op) [astensor a0]
                 (if x <? y then [x; y] else [y; y]) tr (Some "r") [] None)).
Proof.
  intros Hs Hp. unfold TensorQR_call, ndim. rewrite Hs. simpl.
  unfold bind at 1. unfold lift. rewrite Hp. simpl.
  unfold new_tensors. unfold bind at 1. unfold bind at 1.
  destruct (update_key_ok self s) as (op & s1 & Hu & _). rewrite Hu.
  simpl. unfold bind, fresh, ret. simpl.
  eexists _, _, _, _. reflexivity.
Qed.

Lemma call_rank2_raise (self : TensorQR) (a0 : ArrayLike) (x y : nat)
      (e : Exception) (s : Store) :
  shape (astensor a0) = [x; y] ->
  np_linalg_qr_ones (dtype (astensor a0)) = Raise e ->
  TensorQR_call astensor np_linalg_qr_ones self a0 s = (s, Raise e).
Proof.
  intros Hs Hp. unfold TensorQR_call, ndim. rewrite Hs. simpl.
  unfold bind, lift. rewrite Hp. reflexivity.
Qed.

Lemma call_not_rank2 (self : TensorQR) (a0 : ArrayLike) (s : Store) :
  ndim (astensor a0) <> 2 ->
  TensorQR_call astensor np_linalg_qr_ones self a0 s =
    (s, Raise (LinAlgError (dimension_message (ndim (astensor a0))))).
Proof.
  intros H. unfold TensorQR_call.
  apply Nat.eqb_neq in H. rewrite H. reflexivity.
Qed.

(** C1: on an input of shape (x, y) the call gives Q and R the shapes of
    the tall/wide/square rule, (x, y) and (y, y) when x > y, (x, x) and
    (x, y) when x < y, (x, x) and (y, y) when x = y.  The dtype probe comes
    first: when it raises, its exception is what the call raises. *)
Theorem call_resolves_shapes (self : TensorQR) (a0 : ArrayLike)
    (x y : nat) (s : Store) :
  shape (astensor a0) = [x; y] ->
  match np_linalg_qr_ones (dtype (astensor a0)) with
  | Raise e =>
      TensorQR_call astensor np_linalg_qr_ones self a0 s = (s, Raise e)
  | Ok _ =>
      exists q r s',
        TensorQR_call astensor np_linalg_qr_ones self a0 s = (s', Ok (q, r)) /\
        (y < x -> shape q = [x; y] /\ shape r = [y; y]) /\
        (x < y -> shape q = [x; x] /\ shape r = [x; y]) /\
        (x = y -> shape q = [x; x] /\ shape r = [y; y])
  end.
Proof.
  intros Hs.
  destruct (np_linalg_qr_ones (dtype (astensor a0))) as [[tq tr]|e] eqn:Hp.
  - destruct (call_rank2 self a0 x y tq tr s Hs Hp) as (op & k1 & k2 & s' & H).
    eexists _, _, _. split; [exact H|]. simpl.
    split; [|split]; intros Hxy.
    + apply Nat.ltb_lt in Hxy. rewrite Hxy.
      assert (E : (x <? y) = false) by (apply Nat.ltb_ge; apply Nat.ltb_lt in Hxy; lia).
      rewrite E. split; reflexivity.
    + assert (E : (y <? x) = false) by (apply Nat.ltb_ge; lia).
      apply Nat.ltb_lt in Hxy. rewrite E, Hxy. split; reflexivity.
    + assert (E1 : (y <? x) = false) by (apply Nat.ltb_ge; lia).
      assert (E2 : (x <? y) = false) by (apply Nat.ltb_ge; lia).
      rewrite E1, E2. split; reflexivity.
  - apply (call_rank2_raise self a0 x y e s Hs Hp).
Qed.

(** C3: on an input whose rank is not 2 the call raises the dimension
    error, whose message starts with the rank of the input in decimal, and
    the store is the one the call started from: no tensor has been created.
    Neither the dtype probe nor the method has a say. *)
Theorem call_rejects_rank (self : TensorQR) (a0 : ArrayLike)
    (m : option string) (s : Store) :
  ndim (astensor a0) <> 2 ->
  let n := ndim (astensor a0) in
  TensorQR_call astensor np_linalg_qr_ones self a0 s =
    (s, Raise (LinAlgError (dimension_message n))) /\
  qr astensor np_linalg_qr_ones a0 m s =
    (s, Raise (LinAlgError (dimension_message n))) /\
  dimension_message n =
    String.append (format_nat n)
      "-dimensional tensor given. Tensor must be two-dimensional" /\
  parse_nat (format_nat n) = Some n.
Proof.
  intros H n. repeat split.
  - apply call_not_rank2. exact H.
  - unfold qr. apply call_not_rank2. exact H.
  - apply parse_format_nat.
Qed.

(** C5: on a rank-2 input the dtypes of the outputs are those of the two
    arrays the local primitive returns on the 1x1 matrix of the input's
    dtype: the first for Q, the second for R. *)
Theorem call_resolves_dtypes (self : TensorQR) (a0 : ArrayLike)
    (x y : nat) (tq tr : DType) (s : Store) :
  shape (astensor a0) = [x; y] ->
  np_linalg_qr_ones (dtype (astensor a0)) = Ok (tq, tr) ->
  exists q r s',
    TensorQR_call astensor np_linalg_qr_ones self a0 s = (s', Ok (q, r)) /\
    dtype q = tq /\ dtype r = tr /\
    side q = Some "q" /\ side r = Some "r".
Proof.
  intros Hs Hp.
  destruct (call_rank2 self a0 x y tq tr s Hs Hp) as (op & k1 & k2 & s' & H).
  eexists _, _, _. split; [exact H|]. simpl. auto.
Qed.

(** C10: the shapes and dtypes of the outputs, and the exception if there
    is one, are the same whatever the operand, hence whatever its method,
    and whatever the store. *)
Theorem call_metadata_ignores_method (self1 self2 : TensorQR)
    (m1 m2 : option string) (a0 : ArrayLike) (s1 s2 : Store) :
  call_metadata (TensorQR_call astensor np_linalg_qr_ones self1 a0 s1) =
  call_metadata (TensorQR_call astensor np_linalg_qr_ones self2 a0 s2) /\
  call_metadata (qr astensor np_linalg_qr_ones a0 m1 s1) =
  call_metadata (qr astensor np_linalg_qr_ones a0 m2 s2).
Proof.
  assert (G : forall o1 o2 : TensorQR,
    call_metadata (TensorQR_call astensor np_linalg_qr_ones o1 a0 s1) =
    call_metadata (TensorQR_call astensor np_linalg_qr_ones o2 a0 s2)).
  { intros o1 o2.
    destruct (Nat.eq_dec (ndim (astensor a0)) 2) as [E|N].
    - unfold ndim in E.
      destruct (shape (astensor a0)) as [|x [|y [|z l]]] eqn:Hs;
        try discriminate.
      destruct (np_linalg_qr_ones (dtype (astensor a0))) as [[tq tr]|e] eqn:Hp.
      + destruct (call_rank2 o1 a0 x y tq tr s1 Hs Hp) as (? & ? & ? & ? & H1).
        destruct (call_rank2 o2 a0 x y tq tr s2 Hs Hp) as (? & ? & ? & ? & H2).
        rewrite H1, H2. reflexivity.
      + rewrite (call_rank2_raise o1 a0 x y e s1 Hs Hp).
        rewrite (call_rank2_raise o2 a0 x y e s2 Hs Hp). reflexivity.
    - rewrite !call_not_rank2 by exact N. reflexivity. }
  split; [apply G|]. unfold qr. apply G.
Qed.

End CallFacts.

(** ** The tiling *)

Section TileFacts.

Variable TSQR_tile : Op -> M (list Tensor).

(** What the single-chunk branch builds, key by key. *)
Lemma tile_single_block (op : Op) (in_chunk : Chunk) (rest : list Chunk)
    (s : Store) :
  chunk_shape (input op) = Some [1; 1] ->
  chunks (input op) = in_chunk :: rest ->
  exists top k3 k4 s',
    let cop := mkTensorQR (Some s) (method op) (_dtype (params op)) in
    let q := fst (outputs op) in
    let r := snd (outputs op) in
    TensorQR_tile TSQR_tile op s =
      (s', Ok [mkTensor k3 (Some top) (inputs op) (shape q) (dtype q) None
                 [mkChunk (S s) (Some (LocalQR cop)) [in_chunk] (shape q)
                    (c_index in_chunk) (Some "q")] (Some [[1]; [1]]);
               mkTensor k4 (Some top) (inputs op) (shape r) (dtype r) None
                 [mkChunk (S (S s)) (Some (LocalQR cop)) [in_chunk] (shape r)
                    (c_index in_chunk) (Some "r")] (Some [[1]; [1]])]) /\
    erase_op top = erase_op (params op).
Proof.
  intros Hcs Hc. unfold TensorQR_tile.
  destruct (outputs op) as [q r] eqn:Ho.
  rewrite (proj2 (is_single_chunk_true _) Hcs). rewrite Hc.
  unfold new_chunks, new_tensors, update_key, reset_key, copy, method. simpl.
  destruct (_key (params op)) as [k|] eqn:K;
    unfold bind, fresh, ret; simpl.
  - eexists _, _, _, _. split; [reflexivity|]. reflexivity.
  - eexists _, _, _, _. split; [reflexivity|]. reflexivity.
Qed.

(** C2: when the input has one chunk (its chunk shape is (1, 1)), tiling
    gives two tensors of one chunk each; the two chunks are the outputs of
    one local-QR operation, whose only input is the chunk of the input;
    their shapes are the shapes of the outputs of the operand, and both
    tensors have the splits ((1,), (1,)). *)
Theorem tile_single_chunk (op : Op) (in_chunk : Chunk) (s : Store) :
  chunk_shape (input op) = Some [1; 1] ->
  chunks (input op) = [in_chunk] ->
  exists qt rt qc rc cop s',
    TensorQR_tile TSQR_tile op s = (s', Ok [qt; rt]) /\
    chunks qt = [qc] /\ chunks rt = [rc] /\
    c_op qc = Some (LocalQR cop) /\ c_op rc = Some (LocalQR cop) /\
    c_inputs qc = [in_chunk] /\ c_inputs rc = [in_chunk] /\
    c_side qc = Some "q" /\ c_side rc = Some "r" /\
    c_shape qc = shape (fst (outputs op)) /\
    c_shape rc = shape (snd (outputs op)) /\
    shape qt = shape (fst (outputs op)) /\
    shape rt = shape (snd (outputs op)) /\
    nsplits qt = Some [[1]; [1]] /\ nsplits rt = Some [[1]; [1]] /\
    chunk_shape qt = Some [1; 1] /\ chunk_shape rt = Some [1; 1].
Proof.
  intros Hcs Hc.
  destruct (tile_single_block op in_chunk [] s Hcs Hc)
    as (top & k3 & k4 & s' & H & _).
  simpl in H. eexists _, _, _, _, _, _. split; [exact H|].
  simpl. repeat split.
Qed.

(** C4: when the input has more than one chunk and the method is not
    'tsqr', tiling raises the not-implemented error, and nothing has been
    created. *)
Theorem tile_rejects_method (op : Op) (s : Store) :
  chunk_shape (input op) <> Some [1; 1] ->
  method op <> Some "tsqr" ->
  TensorQR_tile TSQR_tile op s =
    (s, Raise (NotImplementedError "Only tsqr method supported for now")).
Proof.
  intros Hcs Hm. unfold TensorQR_tile.
  destruct (outputs op) as [q r].
  rewrite (is_single_chunk_false _ Hcs), (is_tsqr_false _ Hm). reflexivity.
Qed.

(** The multi-chunk branch with the method 'tsqr' is the tiling of the
    base class. *)
Lemma tile_delegates (op : Op) (s : Store) :
  chunk_shape (input op) <> Some [1; 1] ->
  method op = Some "tsqr" ->
  TensorQR_tile TSQR_tile op s = TSQR_tile op s.
Proof.
  intros Hcs Hm. unfold TensorQR_tile.
  destruct (outputs op) as [q r].
  rewrite (is_single_chunk_false _ Hcs), (proj2 (is_tsqr_true _) Hm).
  reflexivity.
Qed.

(** C9: when the input has one chunk, tiling succeeds whatever the method
    of the operand, 'tsqr' or not, set or not; and whenever the chunk shape
    is (1, 1) the not-implemented error cannot come out. *)
Theorem tile_single_chunk_any_method (op : Op) (in_chunk : Chunk)
    (m : option string) (s : Store) :
  chunk_shape (input op) = Some [1; 1] ->
  (chunks (input op) = [in_chunk] ->
   exists qt rt s',
     TensorQR_tile TSQR_tile (set_method m op) s = (s', Ok [qt; rt])) /\
  (forall msg,
     snd (TensorQR_tile TSQR_tile (set_method m op) s) <>
       Raise (NotImplementedError msg)).
Proof.
  intros Hcs. split.
  - intros Hc.
    destruct (tile_single_block (set_method m op) in_chunk [] s Hcs Hc)
      as (top & k3 & k4 & s' & H & _).
    eexists _, _, _. exact H.
  - intros msg.
    destruct (chunks (input op)) as [|c cs] eqn:Hc.
    + unfold TensorQR_tile. simpl. destruct (outputs op) as [q r].
      rewrite (proj2 (is_single_chunk_true _) Hcs). rewrite Hc.
      simpl. discriminate.
    + destruct (tile_single_block (set_method m op) c cs s Hcs Hc)
        as (top & k3 & k4 & s' & H & _).
      simpl in H. rewrite H. simpl. discriminate.
Qed.

End TileFacts.

(** C6: with the method 'tsqr' and an input split into several
    column-blocks, tiling goes to the tiling of the base class, which
    raises the not-implemented error before it creates anything. *)
Theorem tsqr_rejects_column_blocks (op : Op) (row_blocks col_blocks : nat)
    (s : Store) :
  method op = Some "tsqr" ->
  chunk_shape (input op) = Some [row_blocks; col_blocks] ->
  1 < col_blocks ->
  TensorQR_tile TSQR_tile_spec op s =
    (s, Raise (NotImplementedError "short-and-fat qr is not implemented")).
Proof.
  intros Hm Hcs Hc.
  rewrite tile_delegates; [| |exact Hm].
  - unfold TSQR_tile_spec. destruct (outputs op) as [q r]. rewrite Hcs.
    apply Nat.ltb_lt in Hc. rewrite Hc. reflexivity.
  - rewrite Hcs. intros E. inversion E. lia.
Qed.

(** ** Running the single chunk *)

Section ExecutionFacts.

Variable Matrix : Type.
Variable localQR : Matrix -> Matrix * Matrix.
Variable vstack : list Matrix -> Matrix.
Variable matmul : Matrix -> Matrix -> Matrix.
Variable row_slice : nat -> nat -> Matrix -> Matrix.
Variable TSQR_tile : Op -> M (list Tensor).

Lemma execute_local_qr (data : Key -> option Matrix) (k : Key)
    (cop : TensorQR) (block : Chunk) (sh idx : list nat) (sd : option string) :
  execute Matrix localQR vstack matmul row_slice data
    (mkChunk k (Some (LocalQR cop)) [block] sh idx sd) =
  match direct_local_qr Matrix localQR vstack matmul row_slice data block with
  | Some p => select_side Matrix sd p
  | None => None
  end.
Proof.
  unfold direct_local_qr. cbn [execute map all_some].
  destruct (execute Matrix localQR vstack matmul row_slice data block);
    reflexivity.
Qed.

(** C7: when the input has one block, the chunk-level node that tiling
    builds is the QR operation itself (a copy with a key of its own)
    applied to that block, and running it is running the local primitive on
    the block: the Q chunk is the first component of what the primitive
    returns on the block and the R chunk the second, value for value. *)
Theorem single_block_is_local_qr (op : Op) (in_chunk : Chunk) (s : Store) :
  chunk_shape (input op) = Some [1; 1] ->
  chunks (input op) = [in_chunk] ->
  exists qt rt qc rc cop s',
    TensorQR_tile TSQR_tile op s = (s', Ok [qt; rt]) /\
    chunks qt = [qc] /\ chunks rt = [rc] /\
    c_op qc = Some (LocalQR cop) /\ c_op rc = Some (LocalQR cop) /\
    _method cop = method op /\ _dtype cop = _dtype (params op) /\
    c_inputs qc = [in_chunk] /\ c_inputs rc = [in_chunk] /\
    forall data,
      execute Matrix localQR vstack matmul row_slice data qc =
        option_map fst
          (direct_local_qr Matrix localQR vstack matmul row_slice data
             in_chunk) /\
      execute Matrix localQR vstack matmul row_slice data rc =
        option_map snd
          (direct_local_qr Matrix localQR vstack matmul row_slice data
             in_chunk).
Proof.
  intros Hcs Hc.
  destruct (tile_single_block TSQR_tile op in_chunk [] s Hcs Hc)
    as (top & k3 & k4 & s' & H & _).
  simpl in H. eexists _, _, _, _, _, _. split; [exact H|].
  cbn [chunks c_op c_inputs _method _dtype].
  repeat (split; [reflexivity|]).
  intros data. rewrite !execute_local_qr.
  destruct (direct_local_qr Matrix localQR vstack matmul row_slice data
              in_chunk) as [p|]; split; reflexivity.
Qed.

End ExecutionFacts.

(** ** Determinism up to node identity *)

Lemma agree_bind {A A' B B'} (erA : A -> A') (erB : B -> B')
    (m1 m2 : M A) (k1 k2 : A -> M B) :
  agree erA m1 m2 ->
  (forall a1 a2, erA a1 = erA a2 -> agree erB (k1 a1) (k2 a2)) ->
  agree erB (bind m1 k1) (bind m2 k2).
Proof.
  intros Hm Hk s1 s2. unfold bind.
  specialize (Hm s1 s2). unfold outcome in Hm.
  destruct (m1 s1) as [s1' [a1|e1]], (m2 s2) as [s2' [a2|e2]];
    simpl in Hm; try discriminate.
  - apply Hk. inversion Hm. reflexivity.
  - inversion Hm. reflexivity.
Qed.

Lemma agree_ret {A A'} (er : A -> A') (a1 a2 : A) :
  er a1 = er a2 -> agree er (ret a1) (ret a2).
Proof. intros H s1 s2. unfold outcome, ret. simpl. rewrite H. reflexivity. Qed.

Lemma agree_raise {A A'} (er : A -> A') (e : Exception) :
  agree er (raise e) (raise e).
Proof. intros s1 s2. reflexivity. Qed.

Lemma agree_fresh : agree (fun _ : Key => tt) fresh fresh.
Proof. intros s1 s2. reflexivity. Qed.

Lemma agree_update_key (o1 o2 : TensorQR) :
  erase_op o1 = erase_op o2 ->
  agree erase_op (update_key o1) (update_key o2).
Proof.
  intros H s1 s2. unfold erase_op in H.
  destruct o1 as [[k1|] m1 d1], o2 as [[k2|] m2 d2];
    simpl in H; inversion H; subst; reflexivity.
Qed.

Lemma agree_create_chunks (o1 o2 : Operation) (ins1 ins2 : list Chunk)
    (shapes : list (list nat)) (index : list nat) (kws : list ChunkKw) :
  erase_operation o1 = erase_operation o2 ->
  map erase_chunk ins1 = map erase_chunk ins2 ->
  agree (map erase_chunk) (create_chunks o1 ins1 shapes index kws)
                          (create_chunks o2 ins2 shapes index kws).
Proof.
  intros Ho Hi. revert kws.
  induction shapes as [|sh shapes IH]; intros [|kw kws]; simpl;
    try (apply agree_ret; reflexivity).
  eapply agree_bind; [apply agree_fresh|]. intros k1 k2 _.
  eapply agree_bind; [apply IH|]. intros r1 r2 Hr.
  apply agree_ret. simpl. rewrite Ho, Hi, Hr. reflexivity.
Qed.

Lemma agree_new_chunks (o1 o2 : TensorQR) (ins1 ins2 : list Chunk)
    (shapes : list (list nat)) (index : list nat) (kws : list ChunkKw) :
  erase_op o1 = erase_op o2 ->
  map erase_chunk ins1 = map erase_chunk ins2 ->
  agree (map erase_chunk) (new_chunks o1 ins1 shapes index kws)
                          (new_chunks o2 ins2 shapes index kws).
Proof.
  intros Ho Hi. unfold new_chunks.
  eapply agree_bind; [apply agree_update_key; exact Ho|].
  intros a1 a2 Ha. apply agree_create_chunks; [|exact Hi].
  simpl. rewrite Ha. reflexivity.
Qed.

Lemma agree_create_tensors (o1 o2 : TensorQR) (ins1 ins2 : list Tensor)
    (shapes : list (list nat)) (kws1 kws2 : list TensorKw) :
  erase_op o1 = erase_op o2 ->
  map erase_tensor ins1 = map erase_tensor ins2 ->
  map erase_kw kws1 = map erase_kw kws2 ->
  agree (map erase_tensor) (create_tensors o1 ins1 shapes kws1)
                           (create_tensors o2 ins2 shapes kws2).
Proof.
  intros Ho Hi. revert kws1 kws2.
  induction shapes as [|sh shapes IH]; intros [|kw1 kws1] [|kw2 kws2] Hk;
    simpl in *; try discriminate; try (apply agree_ret; reflexivity).
  inversion Hk as [[Hs Hd Hc Hn Hrest]].
  eapply agree_bind; [apply agree_fresh|]. intros k1 k2 _.
  eapply agree_bind; [apply IH; exact Hrest|]. intros r1 r2 Hr.
  apply agree_ret. simpl. rewrite Ho, Hi, Hr, Hs, Hd, Hc, Hn. reflexivity.
Qed.

Lemma agree_new_tensors (o1 o2 : TensorQR) (ins1 ins2 : list Tensor)
    (shapes : list (list nat)) (kws1 kws2 : list TensorKw) :
  erase_op o1 = erase_op o2 ->
  map erase_tensor ins1 = map erase_tensor ins2 ->
  map erase_kw kws1 = map erase_kw kws2 ->
  agree (map erase_tensor) (new_tensors o1 ins1 shapes kws1)
                           (new_tensors o2 ins2 shapes kws2).
Proof.
  intros Ho Hi Hk. unfold new_tensors.
  eapply agree_bind; [apply agree_update_key; exact Ho|].
  intros a1 a2 Ha. apply agree_create_tensors; assumption.
Qed.

(** What two tensors that differ in keys only have in common. *)
Lemma erase_tensor_inv (t1 t2 : Tensor) :
  erase_tensor t1 = erase_tensor t2 ->
  shape t1 = shape t2 /\ dtype t1 = dtype t2 /\
  nsplits t1 = nsplits t2 /\
  map erase_chunk (chunks t1) = map erase_chunk (chunks t2).
Proof.
  destruct t1, t2. simpl. intros H. inversion H. auto.
Qed.

Lemma erase_chunk_inv (c1 c2 : Chunk) :
  erase_chunk c1 = erase_chunk c2 ->
  c_shape c1 = c_shape c2 /\ c_index c1 = c_index c2.
Proof.
  destruct c1, c2. simpl. intros H. inversion H. auto.
Qed.

Lemma same_request_inv (op1 op2 : Op) :
  same_request op1 op2 ->
  erase_op (params op1) = erase_op (params op2) /\
  map erase_tensor (inputs op1) = map erase_tensor (inputs op2) /\
  erase_tensor (input op1) = erase_tensor (input op2) /\
  erase_tensor (fst (outputs op1)) = erase_tensor (fst (outputs op2)) /\
  erase_tensor (snd (outputs op1)) = erase_tensor (snd (outputs op2)).
Proof.
  unfold same_request, erase_request. intros H.
  split; [exact (f_equal params H)|].
  split; [exact (f_equal inputs H)|].
  split; [exact (f_equal input H)|].
  split; [exact (f_equal (fun o => fst (outputs o)) H)|].
  exact (f_equal (fun o => snd (outputs o)) H).
Qed.

(** C8: tiling twice the same request, from any two stores and with any
    keys on the nodes of the request, gives two results that differ in
    keys only: the same exception, or tensors with the same shapes, dtypes,
    splits, chunks and edges.  The multi-chunk branch with the method
    'tsqr' is the tiling of the base class, which is taken to have the
    property. *)
Theorem tile_deterministic (TSQR_tile : Op -> M (list Tensor)) :
  deterministic TSQR_tile -> deterministic (TensorQR_tile TSQR_tile).
Proof.
  intros HT op1 op2 Hreq.
  destruct (same_request_inv _ _ Hreq) as (Hp & Hins & Hin & Hq & Hr).
  assert (Hpm : _method (params op1) = _method (params op2))
    by exact (f_equal _method Hp).
  assert (Hpd : _dtype (params op1) = _dtype (params op2))
    by exact (f_equal _dtype Hp).
  destruct (erase_tensor_inv _ _ Hin) as (_ & _ & Hns & Hch).
  destruct (erase_tensor_inv _ _ Hq) as (Hqs & Hqd & _ & _).
  destruct (erase_tensor_inv _ _ Hr) as (Hrs & Hrd & _ & _).
  assert (Hm : method op1 = method op2)
    by (unfold method; exact (f_equal _method Hp)).
  assert (Hsc : is_single_chunk (input op1) = is_single_chunk (input op2))
    by (unfold is_single_chunk, chunk_shape; rewrite Hns; reflexivity).
  unfold TensorQR_tile.
  destruct (outputs op1) as [q1 r1], (outputs op2) as [q2 r2]. simpl in *.
  rewrite Hsc, Hm, Hqs, Hrs, Hqd, Hrd.
  destruct (is_single_chunk (input op2)).
  - destruct (chunks (input op1)) as [|c1 cs1],
             (chunks (input op2)) as [|c2 cs2];
      simpl in Hch; try discriminate.
    + apply agree_raise.
    + inversion Hch as [[Hc Hcs]].
      destruct (erase_chunk_inv _ _ Hc) as (_ & Hidx). rewrite Hidx.
      eapply agree_bind.
      * apply agree_new_chunks.
        -- unfold reset_key, copy, erase_op. simpl.
           rewrite Hpm, Hpd. reflexivity.
        -- simpl. rewrite Hc. reflexivity.
      * intros l1 l2 Hl.
        destruct l1 as [|a1 [|b1 [|x1 l1]]], l2 as [|a2 [|b2 [|x2 l2]]];
          simpl in Hl; try discriminate; try apply agree_raise.
        inversion Hl as [[Ha Hb]].
        apply agree_new_tensors; [exact Hp|exact Hins|].
        unfold erase_kw. simpl. rewrite Ha, Hb. reflexivity.
  - destruct (is_tsqr (method op2)).
    + apply HT. exact Hreq.
    + apply agree_raise.
Qed.

(** ** The tiling of the base class is deterministic *)

Lemma rows_of_erase (c : Chunk) : rows_of (erase_chunk c) = rows_of c.
Proof. destruct c. reflexivity. Qed.

Lemma map_rows_of_erase (l1 l2 : list Chunk) :
  map erase_chunk l1 = map erase_chunk l2 ->
  map rows_of l1 = map rows_of l2.
Proof.
  assert (E : forall l, map rows_of l = map rows_of (map erase_chunk l)).
  { intros l. rewrite map_map. apply map_ext. intros c.
    symmetry. apply rows_of_erase. }
  intros H. rewrite (E l1), (E l2), H. reflexivity.
Qed.

Lemma map_snd_erase_leaf (l1 l2 : list (Chunk * Chunk)) :
  map erase_leaf l1 = map erase_leaf l2 ->
  map erase_chunk (map snd l1) = map erase_chunk (map snd l2).
Proof.
  assert (E : forall l : list (Chunk * Chunk),
            map erase_chunk (map snd l) = map snd (map erase_leaf l)).
  { intros l. rewrite !map_map. apply map_ext. intros c. reflexivity. }
  intros H. rewrite (E l1), (E l2), H. reflexivity.
Qed.

Lemma agree_leaf_level (o1 o2 : TensorQR) (n : nat) (bs1 bs2 : list Chunk) :
  erase_op o1 = erase_op o2 ->
  map erase_chunk bs1 = map erase_chunk bs2 ->
  agree (map erase_leaf) (leaf_level o1 n bs1) (leaf_level o2 n bs2).
Proof.
  intros Ho. revert bs2.
  induction bs1 as [|b1 bs1 IH]; intros [|b2 bs2] Hb; simpl in Hb;
    try discriminate.
  - apply agree_ret. reflexivity.
  - inversion Hb as [[Hc Hrest]]. simpl.
    destruct (erase_chunk_inv _ _ Hc) as (Hsh & Hidx).
    unfold rows_of. rewrite Hsh, Hidx.
    eapply agree_bind.
    + apply agree_new_chunks; [exact Ho|]. simpl. rewrite Hc. reflexivity.
    + intros l1 l2 Hl.
      destruct l1 as [|a1 [|c1 [|x1 l1]]], l2 as [|a2 [|c2 [|x2 l2]]];
        simpl in Hl; try discriminate; try apply agree_raise.
      inversion Hl as [[Ha Hcc]].
      eapply agree_bind; [apply IH; exact Hrest|].
      intros r1 r2 Hrr. apply agree_ret. simpl.
      unfold erase_leaf at 1 3. simpl. rewrite Ha, Hcc, Hrr. reflexivity.
Qed.

Lemma agree_back_substitute (n : nat) (g1 g2 : Chunk)
    (l1 l2 : list (Chunk * Chunk)) (i : nat) :
  erase_chunk g1 = erase_chunk g2 ->
  map erase_leaf l1 = map erase_leaf l2 ->
  agree (map erase_chunk) (back_substitute n i g1 l1)
                          (back_substitute n i g2 l2).
Proof.
  intros Hg. revert l2 i.
  induction l1 as [|[q1 r1] l1 IH]; intros [|[q2 r2] l2] i Hl; simpl in Hl;
    try discriminate.
  - apply agree_ret. reflexivity.
  - inversion Hl as [[Hq Hr Hrest]]. cbn [back_substitute].
    destruct (erase_chunk_inv _ _ Hq) as (Hsh & _). rewrite Hsh.
    eapply agree_bind.
    + apply agree_create_chunks; [reflexivity|]. simpl.
      rewrite Hq, Hg. reflexivity.
    + intros f1 f2 Hf.
      eapply agree_bind; [apply IH; exact Hrest|].
      intros t1 t2 Ht. apply agree_ret.
      rewrite !map_app, Hf, Ht. reflexivity.
Qed.

Lemma TSQR_tile_spec_deterministic : deterministic TSQR_tile_spec.
Proof.
  intros op1 op2 Hreq.
  destruct (same_request_inv _ _ Hreq) as (Hp & Hins & Hin & Hq & Hr).
  assert (Hpm : _method (params op1) = _method (params op2))
    by exact (f_equal _method Hp).
  assert (Hpd : _dtype (params op1) = _dtype (params op2))
    by exact (f_equal _dtype Hp).
  destruct (erase_tensor_inv _ _ Hin) as (Hsh & _ & Hns & Hch).
  destruct (erase_tensor_inv _ _ Hq) as (Hqs & Hqd & _ & _).
  destruct (erase_tensor_inv _ _ Hr) as (Hrs & Hrd & _ & _).
  unfold TSQR_tile_spec.
  destruct (outputs op1) as [q1 r1], (outputs op2) as [q2 r2]. simpl in *.
  unfold chunk_shape. rewrite Hns, Hsh, Hqs, Hrs, Hqd, Hrd.
  destruct (option_map (map (@List.length nat)) (nsplits (input op2)))
    as [[|rb [|cb [|x l]]]|]; try apply agree_raise.
  destruct (1 <? cb); [apply agree_raise|].
  destruct (shape (input op2)) as [|x [|n [|z l]]]; try apply agree_raise.
  assert (Hc : erase_op (params (reset_key (copy op1))) =
               erase_op (params (reset_key (copy op2)))).
  { unfold reset_key, copy, erase_op. simpl.
    rewrite Hpm, Hpd. reflexivity. }
  eapply agree_bind; [apply agree_leaf_level; [exact Hc|exact Hch]|].
  intros l1 l2 Hl.
  assert (Hlen : List.length l1 = List.length l2).
  { rewrite <- (length_map erase_leaf l1), <- (length_map erase_leaf l2).
    rewrite Hl. reflexivity. }
  rewrite Hlen.
  eapply agree_bind.
  - apply agree_new_chunks; [exact Hc|]. apply map_snd_erase_leaf. exact Hl.
  - intros m1 m2 Hmm.
    destruct m1 as [|g1 [|t1 [|x1 m1]]], m2 as [|g2 [|t2 [|x2 m2]]];
      simpl in Hmm; try discriminate; try apply agree_raise.
    inversion Hmm as [[Hg Ht]].
    eapply agree_bind; [apply agree_back_substitute; [exact Hg|exact Hl]|].
    intros c1 c2 Hcc.
    apply agree_new_tensors; [exact Hp|exact Hins|].
    unfold erase_kw. simpl.
    rewrite Hcc, Ht, (map_rows_of_erase _ _ Hcc). reflexivity.
Qed.

(** ** The theorems at concrete requests *)

(** The example request is what the call returns and leaves behind. *)
Example qr_single_block_matrix (m : option string) :
  qr the_tensor numpy_qr_ones (single_block_matrix 100) m 7 =
    (10, Ok (outputs (request 7 m (single_block_matrix 100) [9; 6] [6; 6]))).
Proof. reflexivity. Qed.

Lemma call_resolves_shapes_witness :
  exists q r s',
    TensorQR_call the_tensor numpy_qr_ones
      (mkTensorQR None (Some "tsqr") None) (single_block_matrix 100) 7 =
      (s', Ok (q, r)) /\
    (6 < 9 -> shape q = [9; 6] /\ shape r = [6; 6]) /\
    (9 < 6 -> shape q = [9; 9] /\ shape r = [9; 6]) /\
    (9 = 6 -> shape q = [9; 9] /\ shape r = [6; 6]).
Proof.
  exact (call_resolves_shapes Tensor the_tensor numpy_qr_ones
           (mkTensorQR None (Some "tsqr") None) (single_block_matrix 100)
           9 6 7 eq_refl).
Defined.

Lemma call_rejects_rank_witness :
  ndim cube <> 2 /\
  TensorQR_call the_tensor numpy_qr_ones
    (mkTensorQR None (Some "tsqr") None) cube 7 =
    (7, Raise (LinAlgError
         "3-dimensional tensor given. Tensor must be two-dimensional")).
Proof.
  assert (H : ndim cube <> 2) by (simpl; discriminate).
  split; [exact H|].
  exact (proj1 (call_rejects_rank Tensor the_tensor numpy_qr_ones
                  (mkTensorQR None (Some "tsqr") None) cube None 7 H)).
Defined.

Lemma call_resolves_dtypes_witness :
  exists q r s',
    TensorQR_call the_tensor asymmetric_qr_ones
      (mkTensorQR None None None) wide_int_matrix 0 = (s', Ok (q, r)) /\
    dtype q = int32 /\ dtype r = float64 /\
    side q = Some "q" /\ side r = Some "r".
Proof.
  exact (call_resolves_dtypes Tensor the_tensor asymmetric_qr_ones
           (mkTensorQR None None None) wide_int_matrix 6 9 int32 float64 0
           eq_refl eq_refl).
Defined.

Lemma tile_single_chunk_witness :
  exists qt rt qc rc cop s',
    TensorQR_tile TSQR_tile_spec
      (request 7 (Some "tsqr") (single_block_matrix 100) [9; 6] [6; 6]) 10 =
      (s', Ok [qt; rt]) /\
    chunks qt = [qc] /\ chunks rt = [rc] /\
    c_op qc = Some (LocalQR cop) /\ c_op rc = Some (LocalQR cop) /\
    c_inputs qc = [source_chunk 101 [9; 6] [0; 0]] /\
    c_inputs rc = [source_chunk 101 [9; 6] [0; 0]] /\
    c_side qc = Some "q" /\ c_side rc = Some "r" /\
    c_shape qc = [9; 6] /\ c_shape rc = [6; 6] /\
    shape qt = [9; 6] /\ shape rt = [6; 6] /\
    nsplits qt = Some [[1]; [1]] /\ nsplits rt = Some [[1]; [1]] /\
    chunk_shape qt = Some [1; 1] /\ chunk_shape rt = Some [1; 1].
Proof.
  exact (tile_single_chunk TSQR_tile_spec
           (request 7 (Some "tsqr") (single_block_matrix 100) [9; 6] [6; 6])
           (source_chunk 101 [9; 6] [0; 0]) 10 eq_refl eq_refl).
Defined.

Lemma tile_rejects_method_witness :
  TensorQR_tile TSQR_tile_spec
    (request 7 (Some "sfqr") (row_blocks_matrix 100) [9; 6] [6; 6]) 10 =
    (10, Raise (NotImplementedError "Only tsqr method supported for now")).
Proof.
  apply (tile_rejects_method TSQR_tile_spec
           (request 7 (Some "sfqr") (row_blocks_matrix 100) [9; 6] [6; 6]) 10).
  - simpl. discriminate.
  - simpl. discriminate.
Defined.

Lemma tile_single_chunk_any_method_witness :
  exists qt rt s',
    TensorQR_tile TSQR_tile_spec
      (set_method (Some "sfqr")
         (request 7 (Some "tsqr") (single_block_matrix 100) [9; 6] [6; 6]))
      10 = (s', Ok [qt; rt]).
Proof.
  exact (proj1 (tile_single_chunk_any_method TSQR_tile_spec
                  (request 7 (Some "tsqr") (single_block_matrix 100)
                     [9; 6] [6; 6])
                  (source_chunk 101 [9; 6] [0; 0]) (Some "sfqr") 10 eq_refl)
               eq_refl).
Defined.

Lemma tsqr_rejects_column_blocks_witness :
  TensorQR_tile TSQR_tile_spec
    (request 7 (Some "tsqr") (grid_matrix 100) [8; 8] [8; 8]) 10 =
    (10, Raise (NotImplementedError "short-and-fat qr is not implemented")).
Proof.
  apply (tsqr_rejects_column_blocks
           (request 7 (Some "tsqr") (grid_matrix 100) [8; 8] [8; 8]) 2 2 10).
  - reflexivity.
  - reflexivity.
  - lia.
Defined.

Lemma tile_deterministic_witness :
  same_request
    (request 7 (Some "tsqr") (row_blocks_matrix 100) [9; 6] [6; 6])
    (request 31 (Some "tsqr") (row_blocks_matrix 500) [9; 6] [6; 6]) /\
  outcome (map erase_tensor)
    (TensorQR_tile TSQR_tile_spec
       (request 7 (Some "tsqr") (row_blocks_matrix 100) [9; 6] [6; 6]) 10) =
  outcome (map erase_tensor)
    (TensorQR_tile TSQR_tile_spec
       (request 31 (Some "tsqr") (row_blocks_matrix 500) [9; 6] [6; 6]) 640).
Proof.
  assert (H : same_request
    (request 7 (Some "tsqr") (row_blocks_matrix 100) [9; 6] [6; 6])
    (request 31 (Some "tsqr") (row_blocks_matrix 500) [9; 6] [6; 6]))
    by reflexivity.
  split; [exact H|].
  exact (tile_deterministic TSQR_tile_spec TSQR_tile_spec_deterministic
           _ _ H 10 640).
Defined.

Lemma single_block_is_local_qr_witness :
  exists qt rt qc rc cop s',
    TensorQR_tile TSQR_tile_spec
      (request 7 (Some "tsqr") (single_block_matrix 100) [9; 6] [6; 6]) 10 =
      (s', Ok [qt; rt]) /\
    chunks qt = [qc] /\ chunks rt = [rc] /\
    c_op qc = Some (LocalQR cop) /\ c_op rc = Some (LocalQR cop) /\
    _method cop = Some "tsqr" /\ _dtype cop = None /\
    c_inputs qc = [source_chunk 101 [9; 6] [0; 0]] /\
    c_inputs rc = [source_chunk 101 [9; 6] [0; 0]] /\
    forall data,
      execute nat toy_qr toy_vstack Nat.mul toy_slice data qc =
        option_map fst
          (direct_local_qr nat toy_qr toy_vstack Nat.mul toy_slice data
             (source_chunk 101 [9; 6] [0; 0])) /\
      execute nat toy_qr toy_vstack Nat.mul toy_slice data rc =
        option_map snd
          (direct_local_qr nat toy_qr toy_vstack Nat.mul toy_slice data
             (source_chunk 101 [9; 6] [0; 0])).
Proof.
  exact (single_block_is_local_qr nat toy_qr toy_vstack Nat.mul toy_slice
           TSQR_tile_spec
           (request 7 (Some "tsqr") (single_block_matrix 100) [9; 6] [6; 6])
           (source_chunk 101 [9; 6] [0; 0]) 10 eq_refl eq_refl).
Defined.

(** Running the two chunks of the tiled single block on the toy backend:
    block 101 holds 303, the primitive gives (606, 607). *)
Example single_block_runs :
  match snd (TensorQR_tile TSQR_tile_spec
               (request 7 (Some "tsqr") (single_block_matrix 100)
                  [9; 6] [6; 6]) 10) with
  | Ok [qt; rt] =>
      map (execute nat toy_qr toy_vstack Nat.mul toy_slice toy_data)
          (chunks qt ++ chunks rt)%list = [Some 606; Some 607]
  | _ => False
  end.
Proof. reflexivity. Qed.

(** The tiling of the base class on two row-blocks: Q in two chunks split
    by rows, R in one. *)
Example row_blocks_tiling :
  match snd (TensorQR_tile TSQR_tile_spec
               (request 7 (Some "tsqr") (row_blocks_matrix 100)
                  [9; 6] [6; 6]) 10) with
  | Ok [qt; rt] =>
      nsplits qt = Some [[4; 5]; [6]] /\ nsplits rt = Some [[6]; [6]] /\
      map c_shape (chunks qt) = [[4; 6]; [5; 6]] /\
      map c_shape (chunks rt) = [[6; 6]] /\
      map c_index (chunks qt) = [[0; 0]; [1; 0]]
  | _ => False
  end.
Proof. simpl. repeat split. Qed.

(** ** More about the call *)

Lemma reduced_q_shape (x y : nat) :
  (if y <? x then [x; y] else [x; x]) = [x; Nat.min x y].
Proof.
  destruct (Nat.ltb_spec y x) as [H|H].
  - rewrite Nat.min_r by lia. reflexivity.
  - rewrite Nat.min_l by lia. reflexivity.
Qed.

Lemma reduced_r_shape (x y : nat) :
  (if x <? y then [x; y] else [y; y]) = [Nat.min x y; y].
Proof.
  destruct (Nat.ltb_spec x y) as [H|H].
  - rewrite Nat.min_l by lia. reflexivity.
  - rewrite Nat.min_r by lia. reflexivity.
Qed.

Section MoreCallFacts.

Variable ArrayLike : Type.
Variable astensor : ArrayLike -> Tensor.
Variable np_linalg_qr_ones : DType -> Result (DType * DType).

(** Everything a successful call tells about its outputs. *)
Lemma call_ok_inv (self : TensorQR) (a0 : ArrayLike) (s s' : Store)
    (q r : Tensor) :
  TensorQR_call astensor np_linalg_qr_ones self a0 s = (s', Ok (q, r)) ->
  exists x y tq tr op k1 k2,
    shape (astensor a0) = [x; y] /\
    np_linalg_qr_ones (dtype (astensor a0)) = Ok (tq, tr) /\
    _method op = _method self /\ _dtype op = _dtype self /\
    _key op <> None /\
    q = mkTensor k1 (Some op) [astensor a0] [x; Nat.min x y] tq (Some "q")
          [] None /\
    r = mkTensor k2 (Some op) [astensor a0] [Nat.min x y; y] tr (Some "r")
          [] None.
Proof.
  intros H.
  destruct (Nat.eq_dec (ndim (astensor a0)) 2) as [E|N].
  - unfold ndim in E.
    destruct (shape (astensor a0)) as [|x [|y [|z l]]] eqn:Hs;
      try discriminate.
    destruct (np_linalg_qr_ones (dtype (astensor a0))) as [[tq tr]|e] eqn:Hp.
    + unfold TensorQR_call, ndim in H. rewrite Hs in H. simpl in H.
      unfold bind at 1 in H. unfold lift in H. rewrite Hp in H. simpl in H.
      unfold new_tensors, update_key in H.
      rewrite reduced_q_shape, reduced_r_shape in H.
      destruct self as [[k|] m d]; simpl in H;
        unfold bind, fresh, ret in H; simpl in H; inversion H; subst.
      * exists x, y, tq, tr, (mkTensorQR (Some k) m d), s, (S s).
        repeat (split; [reflexivity|]).
        split; [simpl; discriminate|]. split; reflexivity.
      * exists x, y, tq, tr, (mkTensorQR (Some s) m d), (S s), (S (S s)).
        repeat (split; [reflexivity|]).
        split; [simpl; discriminate|]. split; reflexivity.
    + rewrite (call_rank2_raise _ astensor np_linalg_qr_ones self a0 x y e s
                 Hs Hp) in H.
      discriminate.
  - rewrite (call_not_rank2 _ astensor np_linalg_qr_ones self a0 s N) in H.
    discriminate.
Qed.

(** X1: the outputs of a successful call on an input of shape (x, y) are
    the reduced factors: Q has x rows and min(x, y) columns, R has
    min(x, y) rows and y columns, so that Q times R has the shape of the
    input, and both are matrices. *)
Theorem call_shapes_reduced (self : TensorQR) (a0 : ArrayLike) (x y : nat)
    (s s' : Store) (q r : Tensor) :
  shape (astensor a0) = [x; y] ->
  TensorQR_call astensor np_linalg_qr_ones self a0 s = (s', Ok (q, r)) ->
  shape q = [x; Nat.min x y] /\ shape r = [Nat.min x y; y] /\
  ndim q = 2 /\ ndim r = 2.
Proof.
  intros Hs H.
  destruct (call_ok_inv self a0 s s' q r H)
    as (x' & y' & tq & tr & op & k1 & k2 & Hs' & _ & _ & _ & _ & Hq & Hr).
  rewrite Hs in Hs'. inversion Hs'. subst. repeat split.
Qed.

(** X2: the call succeeds exactly when the input is a matrix and the dtype
    probe returns; neither the operand, its method nor the store matter. *)
Theorem call_succeeds_iff (self : TensorQR) (a0 : ArrayLike) (s : Store) :
  (exists q r s',
     TensorQR_call astensor np_linalg_qr_ones self a0 s = (s', Ok (q, r))) <->
  ndim (astensor a0) = 2 /\
  exists p, np_linalg_qr_ones (dtype (astensor a0)) = Ok p.
Proof.
  split.
  - intros (q & r & s' & H).
    destruct (call_ok_inv self a0 s s' q r H)
      as (x & y & tq & tr & _ & _ & _ & Hs & Hp & _).
    split; [unfold ndim; rewrite Hs; reflexivity|].
    exists (tq, tr). exact Hp.
  - intros (E & [tq tr] & Hp). unfold ndim in E.
    destruct (shape (astensor a0)) as [|x [|y [|z l]]] eqn:Hs;
      try discriminate.
    destruct (call_rank2 _ astensor np_linalg_qr_ones self a0 x y tq tr s
                Hs Hp) as (op & k1 & k2 & s' & H).
    eexists _, _, _. exact H.
Qed.

(** X3: a call that raises has created nothing, and what it raises is
    either the dimension error, on an input that is not a matrix, or the
    exception of the dtype probe, on a matrix. *)
Theorem call_failure_atomic (self : TensorQR) (a0 : ArrayLike)
    (s s' : Store) (e : Exception) :
  TensorQR_call astensor np_linalg_qr_ones self a0 s = (s', Raise e) ->
  s' = s /\
  ((ndim (astensor a0) <> 2 /\
    e = LinAlgError (dimension_message (ndim (astensor a0)))) \/
   (ndim (astensor a0) = 2 /\
    np_linalg_qr_ones (dtype (astensor a0)) = Raise e)).
Proof.
  intros H.
  destruct (Nat.eq_dec (ndim (astensor a0)) 2) as [E|N].
  - pose proof E as E'. unfold ndim in E'.
    destruct (shape (astensor a0)) as [|x [|y [|z l]]] eqn:Hs;
      try discriminate.
    destruct (np_linalg_qr_ones (dtype (astensor a0))) as [[tq tr]|e'] eqn:Hp.
    + destruct (call_rank2 _ astensor np_linalg_qr_ones self a0 x y tq tr s
                  Hs Hp) as (op & k1 & k2 & s1 & H1).
      rewrite H1 in H. discriminate.
    + rewrite (call_rank2_raise _ astensor np_linalg_qr_ones self a0 x y e' s
                 Hs Hp) in H.
      inversion H. subst. split; [reflexivity|]. right. split; auto.
  - rewrite (call_not_rank2 _ astensor np_linalg_qr_ones self a0 s N) in H.
    inversion H. subst. split; [reflexivity|]. left. split; auto.
Qed.

(** X4: the two outputs of a call are produced by one and the same
    operand, which has a key and the method and dtype of the operand that
    was called, from the input tensor alone; they are not tiled yet. *)
Theorem call_wiring (self : TensorQR) (a0 : ArrayLike) (s s' : Store)
    (q r : Tensor) :
  TensorQR_call astensor np_linalg_qr_ones self a0 s = (s', Ok (q, r)) ->
  t_inputs q = [astensor a0] /\ t_inputs r = [astensor a0] /\
  t_op q = t_op r /\
  (exists op, t_op q = Some op /\ _method op = _method self /\
              _dtype op = _dtype self /\ _key op <> None) /\
  chunks q = [] /\ chunks r = [] /\ nsplits q = None /\ nsplits r = None.
Proof.
  intros H.
  destruct (call_ok_inv self a0 s s' q r H)
    as (x & y & tq & tr & op & k1 & k2 & _ & _ & Hm & Hd & Hk & Hq & Hr).
  subst q r. simpl. repeat split. exists op. auto.
Qed.

(** X5: the method given to [qr] is not looked at by the call; it is the
    method of the operand that both outputs hold, which is where tiling
    reads it. *)
Theorem qr_keeps_method (a0 : ArrayLike) (m : option string)
    (s s' : Store) (q r : Tensor) :
  qr astensor np_linalg_qr_ones a0 m s = (s', Ok (q, r)) ->
  option_map _method (t_op q) = Some m /\
  option_map _method (t_op r) = Some m /\
  qr astensor np_linalg_qr_ones a0 m s =
    TensorQR_call astensor np_linalg_qr_ones (TensorQR_init m None) a0 s.
Proof.
  intros H. unfold qr in H.
  destruct (call_ok_inv _ a0 s s' q r H)
    as (x & y & tq & tr & op & k1 & k2 & _ & _ & Hm & _ & _ & Hq & Hr).
  subst q r. simpl in *. rewrite Hm. repeat split.
Qed.

(** X6: factoring the Q of a call again gives a Q of the same shape and a
    square R; factoring the R again gives an R of the same shape and a
    square Q. *)
Theorem call_on_outputs (self self' : TensorQR) (a0 b : ArrayLike)
    (s s1 s2 : Store) (q r q' r' : Tensor) :
  TensorQR_call astensor np_linalg_qr_ones self a0 s = (s1, Ok (q, r)) ->
  TensorQR_call astensor np_linalg_qr_ones self' b s1 = (s2, Ok (q', r')) ->
  (astensor b = q ->
   shape q' = shape q /\
   exists k, shape r' = [k; k] /\ List.last (shape q) 0 = k) /\
  (astensor b = r ->
   shape r' = shape r /\
   exists k, shape q' = [k; k] /\ List.hd 0 (shape r) = k).
Proof.
  intros H1 H2.
  destruct (call_ok_inv self a0 s s1 q r H1)
    as (x & y & tq & tr & op & k1 & k2 & _ & _ & _ & _ & _ & Hq & Hr).
  destruct (call_ok_inv self' b s1 s2 q' r' H2)
    as (x' & y' & tq' & tr' & op' & k1' & k2' & Hs' & _ & _ & _ & _
        & Hq' & Hr').
  split; intros Hb; rewrite Hb in Hs'.
  - subst q. simpl in Hs'. inversion Hs'. subst x' y'.
    subst q' r'. simpl.
    replace (Nat.min x (Nat.min x y)) with (Nat.min x y) by lia.
    split; [reflexivity|]. exists (Nat.min x y). split; reflexivity.
  - subst r. simpl in Hs'. inversion Hs'. subst x' y'.
    subst q' r'. simpl.
    replace (Nat.min (Nat.min x y) y) with (Nat.min x y) by lia.
    split; [reflexivity|]. exists (Nat.min x y). split; reflexivity.
Qed.

End MoreCallFacts.

(** ** More about the tiling *)

Section MoreTileFacts.

Variable TSQR_tile : Op -> M (list Tensor).

(** X7: in the single-chunk branch the tiled tensors keep the dtypes of the
    outputs of the operand and take the inputs of the operand; both are
    produced by one operand, which is the operand up to its key; the chunks
    take the index of the chunk of the input, and only the first chunk of
    the input is consumed. *)
Theorem tile_single_chunk_metadata (op : Op) (in_chunk : Chunk)
    (rest : list Chunk) (s : Store) :
  chunk_shape (input op) = Some [1; 1] ->
  chunks (input op) = in_chunk :: rest ->
  exists qt rt qc rc s',
    TensorQR_tile TSQR_tile op s = (s', Ok [qt; rt]) /\
    chunks qt = [qc] /\ chunks rt = [rc] /\
    dtype qt = dtype (fst (outputs op)) /\
    dtype rt = dtype (snd (outputs op)) /\
    t_inputs qt = inputs op /\ t_inputs rt = inputs op /\
    t_op qt = t_op rt /\
    option_map erase_op (t_op qt) = Some (erase_op (params op)) /\
    side qt = None /\ side rt = None /\
    c_index qc = c_index in_chunk /\ c_index rc = c_index in_chunk /\
    c_inputs qc = [in_chunk] /\ c_inputs rc = [in_chunk].
Proof.
  intros Hcs Hc.
  destruct (tile_single_block TSQR_tile op in_chunk rest s Hcs Hc)
    as (top & k3 & k4 & s' & H & Htop).
  simpl in H. eexists _, _, _, _, _. split; [exact H|].
  simpl. rewrite Htop. repeat split.
Qed.

(** X8: a tensor that claims the chunk shape (1, 1) but has no chunk makes
    tiling raise the index error of [chunks[0]], with nothing created and
    whatever the method. *)
Theorem tile_single_chunk_no_chunks (op : Op) (s : Store) :
  chunk_shape (input op) = Some [1; 1] ->
  chunks (input op) = [] ->
  TensorQR_tile TSQR_tile op s =
    (s, Raise (IndexError "list index out of range")).
Proof.
  intros Hcs Hc. unfold TensorQR_tile.
  destruct (outputs op) as [q r].
  rewrite (proj2 (is_single_chunk_true _) Hcs), Hc. reflexivity.
Qed.

(** X10: the splits written on the tiled tensors of the single-chunk branch
    are ((1,), (1,)) whatever the shapes: they add up to the shape of the
    tensor only when that shape is (1, 1). *)
Theorem tiled_splits_cover_iff (op : Op) (in_chunk : Chunk)
    (rest : list Chunk) (s : Store) :
  chunk_shape (input op) = Some [1; 1] ->
  chunks (input op) = in_chunk :: rest ->
  exists qt rt s',
    TensorQR_tile TSQR_tile op s = (s', Ok [qt; rt]) /\
    (splits_cover qt <-> shape (fst (outputs op)) = [1; 1]) /\
    (splits_cover rt <-> shape (snd (outputs op)) = [1; 1]).
Proof.
  intros Hcs Hc.
  destruct (tile_single_block TSQR_tile op in_chunk rest s Hcs Hc)
    as (top & k3 & k4 & s' & H & _).
  simpl in H. eexists _, _, _. split; [exact H|].
  unfold splits_cover. simpl.
  split; split; intros E; inversion E; congruence.
Qed.

End MoreTileFacts.

(** X9: the tiling of the base class has no say unless the input has more
    than one chunk and the method is 'tsqr': in the single-chunk branch and
    in the rejection the result is the same whatever the base class does. *)
Theorem tile_ignores_base_class (T1 T2 : Op -> M (list Tensor)) (op : Op)
    (s : Store) :
  chunk_shape (input op) = Some [1; 1] \/ method op <> Some "tsqr" ->
  TensorQR_tile T1 op s = TensorQR_tile T2 op s.
Proof.
  intros H. unfold TensorQR_tile. destruct (outputs op) as [q r].
  destruct (is_single_chunk (input op)) eqn:E; [reflexivity|].
  destruct H as [H|H].
  - apply is_single_chunk_true in H. congruence.
  - rewrite (is_tsqr_false _ H). reflexivity.
Qed.

(** ** Setting the inputs *)

(** X14: [_set_inputs] succeeds exactly on a non-empty list, and then the
    operand keeps the list as its inputs and its first element as its
    input; on the empty list it raises the index error with the inputs
    already emptied and the former input still in place.  Parameters and
    outputs are never touched. *)
Theorem set_inputs_outcome (self : Op) (ins : list Tensor) :
  let op' := fst (_set_inputs self ins) in
  (snd (_set_inputs self ins) = Ok tt <-> ins <> []) /\
  (input_is_first op' <-> ins <> []) /\
  inputs op' = ins /\ params op' = params self /\
  outputs op' = outputs self /\
  (ins = [] ->
   snd (_set_inputs self ins) =
     Raise (IndexError "list index out of range") /\
   input op' = input self).
Proof.
  destruct ins as [|a rest]; simpl; unfold input_is_first; simpl.
  - split; [split; [discriminate|congruence]|].
    split; [split; [discriminate|congruence]|].
    repeat split.
  - split; [split; [discriminate|reflexivity]|].
    split; [split; [discriminate|reflexivity]|].
    repeat split; discriminate.
Qed.

(** X15: after [_set_inputs] on a list whose first tensor has one chunk,
    tiling consumes the first chunk of that first tensor and hands the
    whole list to the tiled tensors as their inputs. *)
Theorem set_inputs_then_tile (T : Op -> M (list Tensor)) (self : Op)
    (a : Tensor) (others : list Tensor) (c : Chunk) (cs : list Chunk)
    (s : Store) :
  chunk_shape a = Some [1; 1] ->
  chunks a = c :: cs ->
  exists qt rt qc rc s',
    TensorQR_tile T (fst (_set_inputs self (a :: others))) s =
      (s', Ok [qt; rt]) /\
    t_inputs qt = a :: others /\ t_inputs rt = a :: others /\
    chunks qt = [qc] /\ chunks rt = [rc] /\
    c_inputs qc = [c] /\ c_inputs rc = [c] /\
    shape qt = shape (fst (outputs self)) /\
    shape rt = shape (snd (outputs self)).
Proof.
  intros Hcs Hc.
  destruct (tile_single_block T (fst (_set_inputs self (a :: others)))
              c cs s Hcs Hc) as (top & k3 & k4 & s' & H & _).
  simpl in H. eexists _, _, _, _, _. split; [exact H|].
  simpl. repeat split.
Qed.

(** X16: setting again the inputs an operand already has changes nothing,
    provided its input is the first of them. *)
Theorem set_inputs_idempotent (op : Op) :
  input_is_first op ->
  _set_inputs op (inputs op) = (op, Ok tt).
Proof.
  unfold input_is_first. destruct op as [p ins a o]. simpl.
  destruct ins as [|b rest]; simpl; [discriminate|].
  intros H. inversion H. reflexivity.
Qed.

(** The rejection of a method, as a fact about the two tests. *)
Lemma tile_rejects_method_aux (T : Op -> M (list Tensor)) (op : Op)
    (s : Store) :
  chunk_shape (input op) <> Some [1; 1] ->
  method op <> Some "tsqr" ->
  TensorQR_tile T op s =
    (s, Raise (NotImplementedError "Only tsqr method supported for now")).
Proof.
  intros Hcs Hm. unfold TensorQR_tile.
  destruct (outputs op) as [q r].
  rewrite (is_single_chunk_false _ Hcs), (is_tsqr_false _ Hm). reflexivity.
Qed.

(** ** From the call to the tiling *)

Section CallThenTile.

Variable ArrayLike : Type.
Variable astensor : ArrayLike -> Tensor.
Variable np_linalg_qr_ones : DType -> Result (DType * DType).
Variable TSQR_tile : Op -> M (list Tensor).

(** X11: tiling the operand of a successful call on a matrix of shape
    (x, y) held in one chunk gives a Q chunk of x rows and min(x, y)
    columns and an R chunk of min(x, y) rows and y columns, both computed
    from the chunk of the matrix, under tensors that keep the shapes and
    the dtypes the call resolved. *)
Theorem call_then_tile_single_chunk (self : TensorQR) (a0 : ArrayLike)
    (x y : nat) (c : Chunk) (cs : list Chunk) (s s1 : Store)
    (q r : Tensor) (op : Op) :
  shape (astensor a0) = [x; y] ->
  chunk_shape (astensor a0) = Some [1; 1] ->
  chunks (astensor a0) = c :: cs ->
  TensorQR_call astensor np_linalg_qr_ones self a0 s = (s1, Ok (q, r)) ->
  input op = astensor a0 ->
  outputs op = (q, r) ->
  exists qt rt qc rc s2,
    TensorQR_tile TSQR_tile op s1 = (s2, Ok [qt; rt]) /\
    chunks qt = [qc] /\ chunks rt = [rc] /\
    c_shape qc = [x; Nat.min x y] /\ c_shape rc = [Nat.min x y; y] /\
    c_inputs qc = [c] /\ c_inputs rc = [c] /\
    shape qt = shape q /\ shape rt = shape r /\
    dtype qt = dtype q /\ dtype rt = dtype r /\
    np_linalg_qr_ones (dtype (astensor a0)) = Ok (dtype qt, dtype rt).
Proof.
  intros Hs Hcs Hc Hcall Hin Hout.
  destruct (call_ok_inv _ astensor np_linalg_qr_ones self a0 s s1 q r Hcall)
    as (x' & y' & tq & tr & o & k1 & k2 & Hs' & Hp & _ & _ & _ & Hq & Hr).
  rewrite Hs in Hs'. inversion Hs'. subst x' y'.
  rewrite <- Hin in Hcs, Hc.
  destruct (tile_single_block TSQR_tile op c cs s1 Hcs Hc)
    as (top & k3 & k4 & s2 & H & _).
  simpl in H. rewrite Hout in H. simpl in H.
  eexists _, _, _, _, _. split; [exact H|].
  subst q r. simpl. rewrite Hp. repeat split.
Qed.

(** X12: a method other than 'tsqr' does not stop the call; it stops the
    tiling, and only when the input has more than one chunk: the call on
    such a matrix succeeds, and tiling its operand raises the
    not-implemented error with nothing created. *)
Theorem unsupported_method_deferred (a0 : ArrayLike) (m : option string)
    (x y : nat) (p : DType * DType) (s : Store) :
  shape (astensor a0) = [x; y] ->
  np_linalg_qr_ones (dtype (astensor a0)) = Ok p ->
  m <> Some "tsqr" ->
  chunk_shape (astensor a0) <> Some [1; 1] ->
  exists q r s1,
    qr astensor np_linalg_qr_ones a0 m s = (s1, Ok (q, r)) /\
    forall op s2,
      t_op q = Some (params op) ->
      input op = astensor a0 ->
      TensorQR_tile TSQR_tile op s2 =
        (s2, Raise (NotImplementedError
                      "Only tsqr method supported for now")).
Proof.
  intros Hs Hp Hm Hcs. destruct p as [tq tr]. unfold qr.
  destruct (call_rank2 _ astensor np_linalg_qr_ones
              (mkTensorQR None m None) a0 x y tq tr s Hs Hp)
    as (o & k1 & k2 & s1 & H).
  eexists _, _, _. split; [exact H|].
  intros op s2 Hop Hin.
  destruct (call_ok_inv _ astensor np_linalg_qr_ones _ a0 s s1 _ _ H)
    as (x' & y' & tq' & tr' & o' & k1' & k2' & _ & _ & Hmo & _ & _ & Hq & _).
  inversion Hq. subst o'. simpl in Hop. inversion Hop. subst o.
  apply tile_rejects_method_aux.
  - rewrite Hin. exact Hcs.
  - unfold method. rewrite Hmo. exact Hm.
Qed.

(** X13: with the default method of [qr] the tiling never rejects the
    method: on a matrix in several chunks the call succeeds and tiling its
    operand is the tiling of the base class, from the same store. *)
Theorem default_method_delegates (a0 : ArrayLike) (x y : nat)
    (p : DType * DType) (s : Store) :
  shape (astensor a0) = [x; y] ->
  np_linalg_qr_ones (dtype (astensor a0)) = Ok p ->
  chunk_shape (astensor a0) <> Some [1; 1] ->
  exists q r s1,
    qr astensor np_linalg_qr_ones a0 default_method s = (s1, Ok (q, r)) /\
    forall op s2,
      t_op q = Some (params op) ->
      input op = astensor a0 ->
      TensorQR_tile TSQR_tile op s2 = TSQR_tile op s2.
Proof.
  intros Hs Hp Hcs. destruct p as [tq tr]. unfold qr.
  destruct (call_rank2 _ astensor np_linalg_qr_ones
              (mkTensorQR None default_method None) a0 x y tq tr s Hs Hp)
    as (o & k1 & k2 & s1 & H).
  eexists _, _, _. split; [exact H|].
  intros op s2 Hop Hin.
  destruct (call_ok_inv _ astensor np_linalg_qr_ones _ a0 s s1 _ _ H)
    as (x' & y' & tq' & tr' & o' & k1' & k2' & _ & _ & Hmo & _ & _ & Hq & _).
  inversion Hq. subst o'. simpl in Hop. inversion Hop. subst o.
  apply tile_delegates.
  - rewrite Hin. exact Hcs.
  - unfold method. rewrite Hmo. reflexivity.
Qed.

End CallThenTile.

(** ** The further theorems at concrete requests *)

Lemma call_shapes_reduced_witness :
  shape example_q = [9; Nat.min 9 6] /\
  shape example_r = [Nat.min 9 6; 6] /\
  ndim example_q = 2 /\ ndim example_r = 2.
Proof.
  exact (call_shapes_reduced Tensor the_tensor numpy_qr_ones example_self
           example_matrix 9 6 7 10 example_q example_r eq_refl eq_refl).
Defined.

Lemma call_failure_atomic_witness :
  7 = 7 /\
  (ndim (the_tensor half_matrix) <> 2 /\
   TypeError "array type float16 is unsupported in linalg" =
     LinAlgError (dimension_message (ndim (the_tensor half_matrix))) \/
   ndim (the_tensor half_matrix) = 2 /\
   numpy_qr_ones (dtype (the_tensor half_matrix)) =
     Raise (TypeError "array type float16 is unsupported in linalg")).
Proof.
  exact (call_failure_atomic Tensor the_tensor numpy_qr_ones example_self
           half_matrix 7 7
           (TypeError "array type float16 is unsupported in linalg")
           eq_refl).
Defined.

Lemma call_wiring_witness :
  t_inputs example_q = [the_tensor example_matrix] /\
  t_inputs example_r = [the_tensor example_matrix] /\
  t_op example_q = t_op example_r /\
  (exists op : TensorQR,
     t_op example_q = Some op /\ _method op = _method example_self /\
     _dtype op = _dtype example_self /\ _key op <> None) /\
  chunks example_q = [] /\ chunks example_r = [] /\
  nsplits example_q = None /\ nsplits example_r = None.
Proof.
  exact (call_wiring Tensor the_tensor numpy_qr_ones example_self
           example_matrix 7 10 example_q example_r eq_refl).
Defined.

Lemma qr_keeps_method_witness :
  option_map _method
    (t_op (fst (outputs (request 7 (Some "sfqr") example_matrix
                           [9; 6] [6; 6])))) = Some (Some "sfqr") /\
  option_map _method
    (t_op (snd (outputs (request 7 (Some "sfqr") example_matrix
                           [9; 6] [6; 6])))) = Some (Some "sfqr") /\
  qr the_tensor numpy_qr_ones example_matrix (Some "sfqr") 7 =
    TensorQR_call the_tensor numpy_qr_ones
      (TensorQR_init (Some "sfqr") None) example_matrix 7.
Proof.
  exact (qr_keeps_method Tensor the_tensor numpy_qr_ones example_matrix
           (Some "sfqr") 7 10
           (fst (outputs (request 7 (Some "sfqr") example_matrix
                            [9; 6] [6; 6])))
           (snd (outputs (request 7 (Some "sfqr") example_matrix
                            [9; 6] [6; 6])))
           eq_refl).
Defined.

Lemma call_on_outputs_witness :
  exists q' r' s2,
    TensorQR_call the_tensor numpy_qr_ones example_self example_q 10 =
      (s2, Ok (q', r')) /\
    shape q' = shape example_q /\
    exists k, shape r' = [k; k] /\ List.last (shape example_q) 0 = k.
Proof.
  eexists _, _, _. split; [vm_compute; reflexivity|].
  exact (proj1 (call_on_outputs Tensor the_tensor numpy_qr_ones
                  example_self example_self example_matrix example_q
                  7 10 _ example_q example_r _ _ eq_refl eq_refl)
               eq_refl).
Defined.

Lemma tile_single_chunk_metadata_witness :
  exists (qt rt : Tensor) (qc rc : Chunk) (s' : Store),
    TensorQR_tile TSQR_tile_spec example_request 10 = (s', Ok [qt; rt]) /\
    chunks qt = [qc] /\ chunks rt = [rc] /\
    dtype qt = dtype (fst (outputs example_request)) /\
    dtype rt = dtype (snd (outputs example_request)) /\
    t_inputs qt = inputs example_request /\
    t_inputs rt = inputs example_request /\
    t_op qt = t_op rt /\
    option_map erase_op (t_op qt) =
      Some (erase_op (params example_request)) /\
    side qt = None /\ side rt = None /\
    c_index qc = c_index example_chunk /\
    c_index rc = c_index example_chunk /\
    c_inputs qc = [example_chunk] /\ c_inputs rc = [example_chunk].
Proof.
  exact (tile_single_chunk_metadata TSQR_tile_spec example_request
           example_chunk [] 10 eq_refl eq_refl).
Defined.

Lemma tile_single_chunk_no_chunks_witness :
  TensorQR_tile TSQR_tile_spec
    (request 7 (Some "tsqr") hollow_matrix [3; 3] [3; 3]) 10 =
    (10, Raise (IndexError "list index out of range")).
Proof.
  exact (tile_single_chunk_no_chunks TSQR_tile_spec
           (request 7 (Some "tsqr") hollow_matrix [3; 3] [3; 3]) 10
           eq_refl eq_refl).
Defined.

Lemma tile_ignores_base_class_witness :
  TensorQR_tile TSQR_tile_spec example_request 10 =
  TensorQR_tile unreachable_tile example_request 10.
Proof.
  exact (tile_ignores_base_class TSQR_tile_spec unreachable_tile
           example_request 10 (or_introl eq_refl)).
Defined.

Lemma tiled_splits_cover_iff_witness :
  exists (qt rt : Tensor) (s' : Store),
    TensorQR_tile TSQR_tile_spec example_request 10 = (s', Ok [qt; rt]) /\
    (splits_cover qt <-> shape (fst (outputs example_request)) = [1; 1]) /\
    (splits_cover rt <-> shape (snd (outputs example_request)) = [1; 1]).
Proof.
  exact (tiled_splits_cover_iff TSQR_tile_spec example_request
           example_chunk [] 10 eq_refl eq_refl).
Defined.

Lemma call_then_tile_single_chunk_witness :
  exists (qt rt : Tensor) (qc rc : Chunk) (s2 : Store),
    TensorQR_tile TSQR_tile_spec example_request 10 = (s2, Ok [qt; rt]) /\
    chunks qt = [qc] /\ chunks rt = [rc] /\
    c_shape qc = [9; Nat.min 9 6] /\ c_shape rc = [Nat.min 9 6; 6] /\
    c_inputs qc = [example_chunk] /\ c_inputs rc = [example_chunk] /\
    shape qt = shape example_q /\ shape rt = shape example_r /\
    dtype qt = dtype example_q /\ dtype rt = dtype example_r /\
    numpy_qr_ones (dtype (the_tensor example_matrix)) =
      Ok (dtype qt, dtype rt).
Proof.
  exact (call_then_tile_single_chunk Tensor the_tensor numpy_qr_ones
           TSQR_tile_spec example_self example_matrix 9 6 example_chunk []
           7 10 example_q example_r example_request
           eq_refl eq_refl eq_refl eq_refl eq_refl eq_refl).
Defined.

Lemma unsupported_method_deferred_witness :
  exists (q r : Tensor) (s1 : Store),
    qr the_tensor numpy_qr_ones (row_blocks_matrix 100) (Some "sfqr") 7 =
      (s1, Ok (q, r)) /\
    forall (op : Op) (s2 : Store),
      t_op q = Some (params op) ->
      input op = the_tensor (row_blocks_matrix 100) ->
      TensorQR_tile TSQR_tile_spec op s2 =
        (s2, Raise (NotImplementedError
                      "Only tsqr method supported for now")).
Proof.
  assert (H1 : Some "sfqr" <> Some "tsqr") by discriminate.
  assert (H2 : chunk_shape (the_tensor (row_blocks_matrix 100)) <>
               Some [1; 1]) by discriminate.
  exact (unsupported_method_deferred Tensor the_tensor numpy_qr_ones
           TSQR_tile_spec (row_blocks_matrix 100) (Some "sfqr") 9 6
           (float64, float64) 7 eq_refl eq_refl H1 H2).
Defined.

Lemma default_method_delegates_witness :
  exists (q r : Tensor) (s1 : Store),
    qr the_tensor numpy_qr_ones (row_blocks_matrix 100) default_method 7 =
      (s1, Ok (q, r)) /\
    forall (op : Op) (s2 : Store),
      t_op q = Some (params op) ->
      input op = the_tensor (row_blocks_matrix 100) ->
      TensorQR_tile TSQR_tile_spec op s2 = TSQR_tile_spec op s2.
Proof.
  assert (H2 : chunk_shape (the_tensor (row_blocks_matrix 100)) <>
               Some [1; 1]) by discriminate.
  exact (default_method_delegates Tensor the_tensor numpy_qr_ones
           TSQR_tile_spec (row_blocks_matrix 100) 9 6
           (float64, float64) 7 eq_refl eq_refl H2).
Defined.

Lemma set_inputs_then_tile_witness :
  exists (qt rt : Tensor) (qc rc : Chunk) (s' : Store),
    TensorQR_tile TSQR_tile_spec
      (fst (_set_inputs
              (request 7 (Some "tsqr") (row_blocks_matrix 200) [9; 6] [6; 6])
              [example_matrix; row_blocks_matrix 200])) 10 =
      (s', Ok [qt; rt]) /\
    t_inputs qt = [example_matrix; row_blocks_matrix 200] /\
    t_inputs rt = [example_matrix; row_blocks_matrix 200] /\
    chunks qt = [qc] /\ chunks rt = [rc] /\
    c_inputs qc = [example_chunk] /\ c_inputs rc = [example_chunk] /\
    shape qt =
      shape (fst (outputs (request 7 (Some "tsqr") (row_blocks_matrix 200)
                             [9; 6] [6; 6]))) /\
    shape rt =
      shape (snd (outputs (request 7 (Some "tsqr") (row_blocks_matrix 200)
                             [9; 6] [6; 6]))).
Proof.
  exact (set_inputs_then_tile TSQR_tile_spec
           (request 7 (Some "tsqr") (row_blocks_matrix 200) [9; 6] [6; 6])
           example_matrix [row_blocks_matrix 200] example_chunk [] 10
           eq_refl eq_refl).
Defined.

Lemma set_inputs_idempotent_witness :
  _set_inputs example_request (inputs example_request) =
    (example_request, Ok tt).
Proof.
  exact (set_inputs_idempotent example_request eq_refl).
Defined.
